(** * Forest Mini: the analysis client, the settings store, the lens view
    and the analyze command, embedded from the TypeScript sources.

  - [JsString]: strings as sequences of UTF-16 code units, with the two
    string methods the plugin calls ([trim], [includes]);
  - [Gemini]: gemini.ts, class GeminiClient;
  - [Settings]: settings.ts and the load/save pair of main.ts;
  - [Lens]: src/views/LensView.ts;
  - [Plugin]: main.ts, activateLensView and analyzeCurrentNote. *)

From Stdlib Require Import NArith Ascii String List Bool Lia.
From stdpp Require Import base option list strings gmap.

Local Open Scope N_scope.
Set Warnings "-register-all".

(* ===================================================================== *)
(** ** JavaScript strings *)
(* ===================================================================== *)

Module JsString.

(** A JavaScript string is a sequence of UTF-16 code units. *)
Definition jsstring : Type := list N.

(** An ASCII literal of the source, code unit by code unit. *)
Definition lit (s : string) : jsstring :=
  List.map N_of_ascii (list_ascii_of_string s).

(** "\n" *)
Definition nl : jsstring := [10].
(** The double-quote character. *)
Definition dquote : jsstring := [34].

(** ECMAScript WhiteSpace and LineTerminator code points, the ones
    String.prototype.trim strips. *)
Definition isWhiteSpace (c : N) : bool :=
  (c =? 0x09) || (c =? 0x0A) || (c =? 0x0B) || (c =? 0x0C) || (c =? 0x0D)
  || (c =? 0x20) || (c =? 0xA0) || (c =? 0x1680)
  || ((0x2000 <=? c) && (c <=? 0x200A))
  || (c =? 0x2028) || (c =? 0x2029) || (c =? 0x202F) || (c =? 0x205F)
  || (c =? 0x3000) || (c =? 0xFEFF).

Fixpoint trimStart (s : jsstring) : jsstring :=
  match s with
  | [] => []
  | c :: r => if isWhiteSpace c then trimStart r else s
  end.

Definition trimEnd (s : jsstring) : jsstring := rev (trimStart (rev s)).

(** s.trim() *)
Definition trim (s : jsstring) : jsstring := trimEnd (trimStart s).

(** s === '' *)
Definition isEmpty (s : jsstring) : bool :=
  match s with [] => true | _ => false end.

(** Truthiness of a string value: only '' is falsy. *)
Definition truthy (s : jsstring) : bool := negb (isEmpty s).

(** The guard both [initialize] and [analyzeNote] and the command use:
    [!s || s.trim() === ''] *)
Definition isBlank (s : jsstring) : bool :=
  negb (truthy s) || isEmpty (trim s).

(** What the specification calls empty or whitespace-only. *)
Definition whitespaceOnly (s : jsstring) : bool := forallb isWhiteSpace s.

Fixpoint startsWith (s p : jsstring) : bool :=
  match p, s with
  | [], _ => true
  | _ :: _, [] => false
  | a :: p', b :: s' => (a =? b) && startsWith s' p'
  end.

(** s.includes(p) *)
Fixpoint includes (s p : jsstring) : bool :=
  startsWith s p ||
  match s with
  | [] => false
  | _ :: s' => includes s' p
  end.

End JsString.
Export JsString.

(* ===================================================================== *)
(** ** The DOM fragment the lens view writes to *)
(* ===================================================================== *)

Module Dom.

(** An element as [createEl(tag, { cls, text })] builds it, with the
    children appended to it afterwards. *)
Inductive el : Type :=
| El (tag : string) (cls : option string) (text : jsstring) (kids : list el).

Definition el_cls (e : el) : option string :=
  match e with El _ c _ _ => c end.

(** parent.empty(): every child is removed. *)
Definition empty (parent : list el) : list el := [].

(** parent.createEl(...): the new element becomes the last child. *)
Definition createEl (parent : list el) (child : el) : list el :=
  parent ++ [child].

End Dom.
Export Dom.

(* ===================================================================== *)
(** ** The plugin's world: its objects, its host, its effects *)
(* ===================================================================== *)

Module World.

(** A value that reaches a [catch]: an [Error] carrying a message, or
    anything else ([error instanceof Error] is false for it). *)
Inductive thrown : Type :=
| ErrorObj (message : jsstring)
| NonError.

Inductive result (A : Type) : Type :=
| Ok (a : A)
| Throw (e : thrown).
Arguments Ok {A} a.
Arguments Throw {A} e.

(** What the provider does with one prompt: the awaited
    [generateContent], [result.response] and [response.text()] chain
    either yields the text or throws. *)
Inductive ProviderOutcome : Type :=
| Responds (text : jsstring)
| Rejects (e : thrown).

(** Effects, in the order they happen. [PanelRendered] is the content of
    the lens view at the end of one of its show operations. *)
Inductive Event : Type :=
| Notice (message : jsstring)
| ConsoleError (label : jsstring) (e : thrown)
| NetworkCall (modelName : jsstring) (prompt : jsstring)
| PanelRendered (content : list el)
| RevealLeaf.

(** settings.ts, interface ForestMiniSettings *)
Record ForestMiniSettings : Type := mkSettings {
  geminiApiKey : jsstring;
  mephistoPrompt : jsstring
}.

(** The provider library's handle and model objects. *)
Record GoogleGenerativeAI : Type := mkGenAI { apiKey : jsstring }.
Record GenerativeModel : Type := mkModel {
  modelKey : jsstring;
  modelName : jsstring
}.

(** gemini.ts, the two private fields of GeminiClient *)
Record GeminiClient : Type := mkClient {
  genAI : option GoogleGenerativeAI;
  model : option GenerativeModel
}.

(** [new GeminiClient()] *)
Definition newClient : GeminiClient := mkClient None None.

(** LensView.ts: the children of [this.contentEl]. *)
Record LensView : Type := mkLens { contentEl : list el }.

Record World : Type := mkWorld {
  settings : ForestMiniSettings;
  geminiClient : GeminiClient;
  (** workspace.getLeavesOfType(LENS_VIEW_TYPE)[0], with its view *)
  lensLeaf : option LensView;
  (** whether workspace.getRightLeaf(false) yields a leaf *)
  rightLeaf : bool;
  (** the provider behind [model.generateContent] *)
  provider : jsstring -> ProviderOutcome;
  (** the host's MarkdownRenderer.render: the nodes it adds to its target *)
  markdownRenderer : jsstring -> list el;
  (** new Date().toLocaleString() *)
  localeNow : jsstring;
  log : list Event
}.

Definition setClient (c : GeminiClient) (w : World) : World :=
  mkWorld (settings w) c (lensLeaf w) (rightLeaf w) (provider w)
          (markdownRenderer w) (localeNow w) (log w).

Definition setLensLeaf (l : option LensView) (w : World) : World :=
  mkWorld (settings w) (geminiClient w) l (rightLeaf w) (provider w)
          (markdownRenderer w) (localeNow w) (log w).

Definition emit (e : Event) (w : World) : World :=
  mkWorld (settings w) (geminiClient w) (lensLeaf w) (rightLeaf w)
          (provider w) (markdownRenderer w) (localeNow w) (log w ++ [e]).

(** Computations of the plugin: they read and write the world and either
    return or throw. *)
Definition M (A : Type) : Type := World -> result A * World.

Definition ret {A} (a : A) : M A := fun w => (Ok a, w).

Definition throw {A} (e : thrown) : M A := fun w => (Throw e, w).

Definition bind {A B} (c : M A) (k : A -> M B) : M B :=
  fun w => match c w with
           | (Ok a, w') => k a w'
           | (Throw e, w') => (Throw e, w')
           end.

(** try { body } catch (error) { handler } *)
Definition try_catch {A} (body : M A) (handler : thrown -> M A) : M A :=
  fun w => match body w with
           | (Ok a, w') => (Ok a, w')
           | (Throw e, w') => handler e w'
           end.

Definition get : M World := fun w => (Ok w, w).
Definition modify (f : World -> World) : M unit := fun w => (Ok tt, f w).
Definition tell (e : Event) : M unit := modify (emit e).

End World.
Export World.

Notation "x <- c ;; k" := (bind c (fun x => k))
(at level 100, c at next level, right associativity).
Notation "c ;;; k" := (bind c (fun _ => k))
(at level 100, right associativity).

(* ===================================================================== *)
(** ** gemini.ts *)
(* ===================================================================== *)

Module Gemini.

(** The fixed model selection. *)
Definition MODEL : jsstring := lit "gemini-1.5-flash".

(** GeminiClient.initialize *)
Definition initialize (apiKey : jsstring) : M unit :=
  if isBlank apiKey then
    throw (ErrorObj (lit "API key is required"))
  else
    modify (fun w =>
      let c := geminiClient w in
      let c := mkClient (Some (mkGenAI apiKey)) (model c) in
      let c := mkClient (genAI c) (Some (mkModel apiKey MODEL)) in
      setClient c w).

(** GeminiClient.isInitialized *)
Definition isInitialized : M bool :=
  w <- get ;;
  ret (match model (geminiClient w) with Some _ => true | None => false end).

(** await this.model.generateContent(fullPrompt), then the text of the
    response: one call to the provider. *)
Definition generateContent (m : GenerativeModel) (prompt : jsstring)
  : M jsstring :=
  tell (NetworkCall (modelName m) prompt) ;;;
  w <- get ;;
  match provider w prompt with
  | Responds text => ret text
  | Rejects e => throw e
  end.

Definition SEPARATOR : jsstring :=
  nl ++ nl ++ lit "---" ++ nl ++ nl ++ lit "Analyze the following note:"
     ++ nl ++ nl.

(** GeminiClient.analyzeNote *)
Definition analyzeNote (systemPrompt noteContent : jsstring) : M jsstring :=
  w <- get ;;
  match model (geminiClient w) with
  | None =>
      throw (ErrorObj (lit
        "Gemini client not initialized. Please set your API key in settings."))
  | Some m =>
      if isBlank noteContent then
        throw (ErrorObj (lit "Note content is empty"))
      else
        try_catch
          (let fullPrompt := systemPrompt ++ SEPARATOR ++ noteContent in
           text <- generateContent m fullPrompt ;;
           if negb (truthy text) then
             throw (ErrorObj (lit "Empty response from Gemini API"))
           else ret text)
          (fun error =>
             tell (ConsoleError (lit "Gemini API error:") error) ;;;
             match error with
             | ErrorObj message =>
                 if includes message (lit "API_KEY_INVALID") then
                   throw (ErrorObj (lit
                     "Invalid API key. Please check your settings."))
                 else if includes message (lit "QUOTA_EXCEEDED") then
                   throw (ErrorObj (lit
                     "API quota exceeded. Please try again later."))
                 else
                   throw (ErrorObj (lit "Analysis failed: " ++ message))
             | NonError =>
                 throw (ErrorObj (lit
                   "Unknown error occurred during analysis"))
             end)
  end.

End Gemini.
Export Gemini.

(* ===================================================================== *)
(** ** settings.ts, and loadSettings / saveSettings of main.ts *)
(* ===================================================================== *)

Module Settings.

(** The values a persisted settings blob (JSON) holds in its fields; a
    nested object is the list of its own properties as parsed. *)
Inductive jsval : Type :=
| VNull
| VBool (b : bool)
| VNum (n : Z)
| VStr (s : jsstring)
| VArr (items : list jsval)
| VObj (fields : list (string * jsval)).

(** The own enumerable properties of a plain object, by name. *)
Abbreviation object := (gmap string jsval).

(** The one property name that Object.prototype answers with an accessor
    instead of a value. *)
Definition PROTO : string := "__proto__".

(** An object being assigned to: its own properties, and whether a write
    to [PROTO] that finds no own property still reaches the accessor of
    Object.prototype up its prototype chain. *)
Record JsObject : Type := mkObj {
  own : object;
  protoAccessor : bool
}.

(** The object literal [{}]. *)
Definition emptyObject : JsObject := mkObj ∅ true.

(** After the accessor has run on [v] (it installs [v] as the prototype
    when [v] is an object or null and ignores any other value): does the
    chain still reach the accessor? Not past a null prototype, and not
    past a parsed object that has [PROTO] as an own data property. *)
Definition accessorAfter (v : jsval) : bool :=
  match v with
  | VNull => false
  | VObj fields =>
      negb (existsb (fun kv => String.eqb (fst kv) PROTO) fields)
  | _ => true
  end.

(** The assignment [target[k] = v] that Object.assign performs: an own
    property is written; so is a new one, except that [PROTO], while the
    target has no such own property and the accessor is in reach, goes to
    the accessor and creates none. *)
Definition assignProperty (k : string) (v : jsval) (t : JsObject) : JsObject :=
  if String.eqb k PROTO then
    match own t !! k with
    | Some _ => mkObj (<[k := v]> (own t)) (protoAccessor t)
    | None =>
        if protoAccessor t then mkObj (own t) (accessorAfter v)
        else mkObj (<[k := v]> (own t)) (protoAccessor t)
    end
  else mkObj (<[k := v]> (own t)) (protoAccessor t).

Definition DEFAULT_PROMPT : jsstring :=
  lit "You are Mephisto, a ruthlessly honest critic and meta-cognitive analyst."
  ++ nl ++
  lit "Your role is to analyze the user's note with brutal honesty and provide insights on:"
  ++ nl ++ lit "- Logic flaws and weak reasoning"
  ++ nl ++ lit "- Unexamined assumptions"
  ++ nl ++ lit "- Missing perspectives"
  ++ nl ++ lit "- Cognitive biases"
  ++ nl ++ lit "- Areas requiring deeper thinking"
  ++ nl ++ nl ++
  lit "Be direct, critical, and constructive. Focus on improving the quality of thinking.".

(** export const DEFAULT_SETTINGS *)
Definition DEFAULT_SETTINGS : ForestMiniSettings :=
  mkSettings [] DEFAULT_PROMPT.

(** A typed settings value as the object it is at run time. *)
Definition toObject (s : ForestMiniSettings) : object :=
  {[ "geminiApiKey"%string := VStr (geminiApiKey s);
     "mephistoPrompt"%string := VStr (mephistoPrompt s) ]}.

(** One source of Object.assign: each own property of the source is
    assigned to the target; a null source is skipped. *)
Definition assignFrom (target : JsObject) (source : option object)
  : JsObject :=
  match source with
  | None => target
  | Some s => map_fold assignProperty target s
  end.

(** Object.assign(target, ...sources) *)
Definition Object_assign (target : JsObject) (sources : list (option object))
  : JsObject :=
  foldl assignFrom target sources.

(** The plugin's settings field and the host's data file (absent until
    the first save). *)
Record PluginData : Type := mkData {
  settingsObj : object;
  dataFile : option object
}.

(** Modelled from the spec: the host's persistence, [loadData() ->
    partial object or empty] and [saveData(object)]; the host keeps the
    last saved object and hands it back. *)
Definition loadData (st : PluginData) : option object := dataFile st.
Definition saveData (o : object) (st : PluginData) : PluginData :=
  mkData (settingsObj st) (Some o).

(** ForestMiniPlugin.loadSettings *)
Definition loadSettings (st : PluginData) : PluginData :=
  mkData
    (own (Object_assign emptyObject
            [Some (toObject DEFAULT_SETTINGS); loadData st]))
    (dataFile st).

(** ForestMiniPlugin.saveSettings *)
Definition saveSettings (st : PluginData) : PluginData :=
  saveData (settingsObj st) st.

End Settings.
Export Settings.

(* ===================================================================== *)
(** ** src/views/LensView.ts *)
(* ===================================================================== *)

Module Lens.

Definition HEADER_TEXT : jsstring :=
  [0xD83D; 0xDD25] ++ lit " Mephisto Analysis".

Definition WELCOME_TEXT : jsstring :=
  lit "Select a note and use " ++ dquote ++ lit "Analyze with Mephisto"
  ++ dquote ++ lit " command to see analysis results here.".

Definition LOADING_TEXT : jsstring :=
  [0xD83E; 0xDD14] ++ lit " Mephisto is analyzing...".

Definition ERROR_LABEL : jsstring := [0x26A0; 0xFE0F] ++ lit " Error".

(** LensView.showWelcomeMessage, on the children of contentEl *)
Definition showWelcomeMessage (contentEl : list el) : list el :=
  let contentEl := Dom.empty contentEl in
  createEl contentEl
    (El "p" (Some "forest-mini-welcome"%string) WELCOME_TEXT []).

(** LensView.showLoading *)
Definition showLoading (contentEl : list el) : list el :=
  let contentEl := Dom.empty contentEl in
  let loadingKids := createEl [] (El "p" None LOADING_TEXT []) in
  createEl contentEl
    (El "div" (Some "forest-mini-loading"%string) [] loadingKids).

(** LensView.showAnalysis; [render] is what MarkdownRenderer.render adds
    to resultEl and [now] is new Date().toLocaleString(). *)
Definition showAnalysis (render : jsstring -> list el) (now : jsstring)
           (analysisText : jsstring) (contentEl : list el) : list el :=
  let contentEl := Dom.empty contentEl in
  let timestampKids :=
    createEl [] (El "small" None (lit "Analysis: " ++ now) []) in
  let contentEl :=
    createEl contentEl
      (El "div" (Some "forest-mini-timestamp"%string) [] timestampKids) in
  createEl contentEl
    (El "div" (Some "forest-mini-result"%string) [] (render analysisText)).

(** LensView.showError *)
Definition showError (errorMessage : jsstring) (contentEl : list el)
  : list el :=
  let contentEl := Dom.empty contentEl in
  let errorKids := createEl [] (El "p" None ERROR_LABEL []) in
  let errorKids := createEl errorKids (El "p" None errorMessage []) in
  createEl contentEl
    (El "div" (Some "forest-mini-error"%string) [] errorKids).

(** LensView.onOpen: a fresh content container showing the welcome
    message. *)
Definition onOpen : LensView := mkLens (showWelcomeMessage []).

(** The view's container after onOpen: the header, then contentEl. *)
Definition container (v : LensView) : list el :=
  let c := Dom.empty [] in
  let c := createEl c
    (El "div" (Some "forest-mini-header"%string) []
        (createEl [] (El "h3" None HEADER_TEXT []))) in
  createEl c (El "div" (Some "forest-mini-content"%string) [] (contentEl v)).

(** The operations of the Result Panel, as requests. *)
Inductive PanelOp : Type :=
| OpWelcome
| OpLoading
| OpResult (now : jsstring) (text : jsstring)
| OpError (message : jsstring).

Definition applyOp (render : jsstring -> list el) (o : PanelOp)
           (contentEl : list el) : list el :=
  match o with
  | OpWelcome => showWelcomeMessage contentEl
  | OpLoading => showLoading contentEl
  | OpResult now text => showAnalysis render now text contentEl
  | OpError m => showError m contentEl
  end.

(** The four variants of the specification's Panel State. *)
Inductive Variant : Type := Welcome | Loading | Result | Error.

Definition variantOfOp (o : PanelOp) : Variant :=
  match o with
  | OpWelcome => Welcome
  | OpLoading => Loading
  | OpResult _ _ => Result
  | OpError _ => Error
  end.

Definition Variant_eqb (a b : Variant) : bool :=
  match a, b with
  | Welcome, Welcome | Loading, Loading | Result, Result | Error, Error =>
      true
  | _, _ => false
  end.

(** The variant a child of contentEl belongs to, by its class. *)
Definition variantOfEl (e : el) : option Variant :=
  match el_cls e with
  | Some c =>
      if String.eqb c "forest-mini-welcome" then Some Welcome
      else if String.eqb c "forest-mini-loading" then Some Loading
      else if String.eqb c "forest-mini-timestamp" then Some Result
      else if String.eqb c "forest-mini-result" then Some Result
      else if String.eqb c "forest-mini-error" then Some Error
      else None
  | None => None
  end.

(** The variants that have some rendering among the children of
    contentEl; a child of no variant counts as [None]. *)
Fixpoint variantsPresent (contentEl : list el) : list (option Variant) :=
  match contentEl with
  | [] => []
  | e :: r =>
      let here := variantOfEl e in
      let rest := variantsPresent r in
      if existsb (fun x => match x, here with
                           | Some a, Some b => Variant_eqb a b
                           | None, None => true
                           | _, _ => false
                           end) rest
      then rest else here :: rest
  end.

End Lens.
Export Lens.

(* ===================================================================== *)
(** ** main.ts *)
(* ===================================================================== *)

Module Plugin.

(** new Notice(message) *)
Definition notice (message : jsstring) : M unit := tell (Notice message).

(** A show operation called on the lens view object, which is the view of
    the workspace's lens leaf: the leaf sees the new content. *)
Definition onLensView (f : list el -> list el) : M unit :=
  modify (fun w =>
    match lensLeaf w with
    | Some v =>
        let c := f (contentEl v) in
        emit (PanelRendered c) (setLensLeaf (Some (mkLens c)) w)
    | None => w
    end).

Definition lensShowLoading : M unit := onLensView Lens.showLoading.

Definition lensShowError (errorMessage : jsstring) : M unit :=
  onLensView (Lens.showError errorMessage).

Definition lensShowAnalysis (analysisText : jsstring) : M unit :=
  w <- get ;;
  onLensView (Lens.showAnalysis (markdownRenderer w) (localeNow w) analysisText).

(** The client set-up of onload: a new client, initialized when a key is
    stored; a failure is only logged. *)
Definition onloadClient : M unit :=
  modify (setClient newClient) ;;;
  w <- get ;;
  if truthy (geminiApiKey (settings w)) then
    try_catch
      (initialize (geminiApiKey (settings w)))
      (fun error =>
         tell (ConsoleError (lit "Failed to initialize Gemini client:") error))
  else ret tt.

(** ForestMiniPlugin.activateLensView *)
Definition activateLensView : M unit :=
  w <- get ;;
  leaf <- match lensLeaf w with
          | Some v => ret (Some v)
          | None =>
              if rightLeaf w then
                (* setViewState: the host builds the view and opens it *)
                modify (setLensLeaf (Some onOpen)) ;;;
                tell (PanelRendered (contentEl onOpen)) ;;;
                ret (Some onOpen)
              else ret None
          end ;;
  match leaf with
  | Some _ => tell RevealLeaf
  | None => ret tt
  end.

(** ForestMiniPlugin.analyzeCurrentNote; [editorValue] is what
    editor.getValue() returns. The [return] inside the first catch is the
    [false] that skips the rest. *)
Definition analyzeCurrentNote (editorValue : jsstring) : M unit :=
  w <- get ;;
  if negb (truthy (geminiApiKey (settings w))) then
    notice (lit "Please set your Gemini API key in settings first.")
  else
    initialized <- isInitialized ;;
    ready <- (if negb initialized then
                try_catch
                  (initialize (geminiApiKey (settings w)) ;;; ret true)
                  (fun _ =>
                     notice (lit
                       "Failed to initialize Gemini client. Check your API key.")
                     ;;; ret false)
              else ret true) ;;
    if negb ready then ret tt
    else
      activateLensView ;;;
      w1 <- get ;;
      match lensLeaf w1 with
      | None => notice (lit "Failed to open Lens View")
      | Some _ =>
          lensShowLoading ;;;
          notice (lit "Analyzing with Mephisto...") ;;;
          try_catch
            (let noteContent := editorValue in
             if isBlank noteContent then
               lensShowError (lit "Current note is empty") ;;;
               notice (lit "Current note is empty")
             else
               analysis <- analyzeNote (mephistoPrompt (settings w))
                                       noteContent ;;
               lensShowAnalysis analysis ;;;
               notice (lit "Analysis complete!"))
            (fun error =>
               tell (ConsoleError (lit "Analysis error:") error) ;;;
               let errorMessage :=
                 match error with
                 | ErrorObj message => message
                 | NonError => lit "Unknown error"
                 end in
               lensShowError errorMessage ;;;
               notice (lit "Analysis failed: " ++ errorMessage))
      end.

(** ** Reading the log *)

Definition networkCalls (l : list Event) : list jsstring :=
  flat_map (fun e => match e with
                     | NetworkCall _ p => [p]
                     | _ => []
                     end) l.

Definition notices (l : list Event) : list jsstring :=
  flat_map (fun e => match e with
                     | Notice m => [m]
                     | _ => []
                     end) l.

Definition panelHistory (l : list Event) : list (list el) :=
  flat_map (fun e => match e with
                     | PanelRendered c => [c]
                     | _ => []
                     end) l.

(** What the user can see of an effect: notices and the panel; the console
    and the network are not user-visible. *)
Definition userVisible (e : Event) : bool :=
  match e with
  | Notice _ | PanelRendered _ | RevealLeaf => true
  | ConsoleError _ _ | NetworkCall _ _ => false
  end.

(** The rendering of the panel's error state for a message. *)
Definition errorState (message : jsstring) : list el :=
  Lens.showError message [].

Definition loadingState : list el := Lens.showLoading [].

(** A world to run examples in. *)
Definition world0 (key : jsstring) (c : GeminiClient) (leaf : option LensView)
           (right : bool) (p : jsstring -> ProviderOutcome) : World :=
  mkWorld (mkSettings key DEFAULT_PROMPT) c leaf right p
          (fun text => [El "p" None text []]) (lit "1/1/2025, 12:00:00 PM") [].

Definition readyClient (key : jsstring) : GeminiClient :=
  mkClient (Some (mkGenAI key)) (Some (mkModel key MODEL)).

End Plugin.
Export Plugin.

(* ===================================================================== *)
(** ** The specification's vocabulary *)
(* ===================================================================== *)

Module Taxonomy.

(** The errors of the specification's taxonomy, as the [Error] values the
    code throws for them. *)
Definition ConfigurationError : thrown :=
  ErrorObj (lit "API key is required").

Definition NotInitializedError : thrown :=
  ErrorObj (lit
    "Gemini client not initialized. Please set your API key in settings.").

Definition EmptyInputError : thrown := ErrorObj (lit "Note content is empty").

Definition EmptyResponseError : thrown :=
  ErrorObj (lit "Empty response from Gemini API").

Definition InvalidApiKeyError : thrown :=
  ErrorObj (lit "Invalid API key. Please check your settings.").

Definition QuotaExceededError : thrown :=
  ErrorObj (lit "API quota exceeded. Please try again later.").

Definition AnalysisFailedError (providerMessage : jsstring) : thrown :=
  ErrorObj (lit "Analysis failed: " ++ providerMessage).

(** The message the orchestrator reads off a caught value. *)
Definition messageOf (e : thrown) : jsstring :=
  match e with
  | ErrorObj m => m
  | NonError => lit "Unknown error"
  end.

(** The world at the moment analyzeCurrentNote reaches its [try] block,
    when its guards let it through: the client initialized if it was not,
    the lens view activated, the loading state shown and announced. *)
Definition untilAnalysis (w : World) : World :=
  snd ((initialized <- isInitialized ;;
        (if negb initialized then initialize (geminiApiKey (settings w))
         else ret tt) ;;;
        activateLensView ;;;
        lensShowLoading ;;;
        notice (lit "Analyzing with Mephisto...")) w).

(** The events of activating the lens view: the view opens on its welcome
    message when there is none yet, then the leaf is revealed. *)
Definition activationEvents (w : World) : list Event :=
  match lensLeaf w with
  | Some _ => [RevealLeaf]
  | None => [PanelRendered (contentEl onOpen); RevealLeaf]
  end.

(** The guards of analyzeCurrentNote that are about the host and the
    client rather than about the note. *)
Definition clientReady (w : World) : bool :=
  match model (geminiClient w) with
  | Some _ => true
  | None => negb (whitespaceOnly (geminiApiKey (settings w)))
  end.

Definition panelAvailable (w : World) : bool :=
  match lensLeaf w with
  | Some _ => true
  | None => rightLeaf w
  end.

(** The [try] block of analyzeCurrentNote with its [catch], on its own;
    [analyzeCurrentNote_past_guards] below shows it is what the command
    runs once its guards have passed. *)
Definition tryBlock (prompt editorValue : jsstring) : M unit :=
  try_catch
    (let noteContent := editorValue in
     if isBlank noteContent then
       lensShowError (lit "Current note is empty") ;;;
       notice (lit "Current note is empty")
     else
       analysis <- analyzeNote prompt noteContent ;;
       lensShowAnalysis analysis ;;;
       notice (lit "Analysis complete!"))
    (fun error =>
       tell (ConsoleError (lit "Analysis error:") error) ;;;
       let errorMessage :=
         match error with
         | ErrorObj message => message
         | NonError => lit "Unknown error"
         end in
       lensShowError errorMessage ;;;
       notice (lit "Analysis failed: " ++ errorMessage)).

End Taxonomy.
Export Taxonomy.

(* ===================================================================== *)
(** ** Worlds and providers for the examples *)
(* ===================================================================== *)

Module Examples.

Definition validkey : jsstring := lit "validkey".

(** A provider that answers every prompt with an empty payload. *)
Definition providerEmpty : jsstring -> ProviderOutcome :=
  fun _ => Responds [].

(** A provider that rejects every prompt as the service does for a bad
    credential. *)
Definition providerInvalidKey : jsstring -> ProviderOutcome :=
  fun _ => Rejects (ErrorObj (lit
    "[400 Bad Request] API key not valid. [reason: API_KEY_INVALID]")).

Definition providerCritique : jsstring -> ProviderOutcome :=
  fun _ => Responds (lit "Critique: ...").

(** The plugin just loaded, no lens view open yet. *)
Definition freshWorld (key : jsstring) (p : jsstring -> ProviderOutcome)
  : World :=
  world0 key newClient None true p.

(** The plugin with its client initialized and the lens view open. *)
Definition readyWorld (key : jsstring) (p : jsstring -> ProviderOutcome)
  : World :=
  world0 key (readyClient key) (Some onOpen) true p.

End Examples.
Export Examples.

(* ===================================================================== *)
(** ** main.ts, class ForestMiniSettingTab *)
(* ===================================================================== *)

Module SettingTab.

Definition setSettings (s : ForestMiniSettings) (w : World) : World :=
  mkWorld s (geminiClient w) (lensLeaf w) (rightLeaf w) (provider w)
          (markdownRenderer w) (localeNow w) (log w).

(** The plugin object together with the host's data file behind it.
    [otherFields] are the properties the settings object may carry besides
    the two of ForestMiniSettings (loadSettings keeps what the data file
    held); [PROTO] is never one of them: a load creates no such own
    property and the handlers write the two typed fields only. *)
Record PluginState : Type := mkPlugin {
  world : World;
  otherFields : object;
  persisted : option object;
  otherFields_plain : otherFields !! PROTO = None
}.

(** A plugin whose settings object has the two typed fields only and
    whose data file does not exist yet. *)
Definition pluginOf (w : World) : PluginState :=
  mkPlugin w ∅ None (lookup_empty PROTO).

(** this.plugin.settings as the object it is at run time. *)
Definition settingsObject (st : PluginState) : object :=
  toObject (settings (world st)) ∪ otherFields st.

(** this.plugin.saveSettings(): the settings object goes to the host. *)
Definition savePlugin (st : PluginState) : PluginState :=
  mkPlugin (world st) (otherFields st)
    (dataFile
       (saveSettings (mkData (settingsObject st) (persisted st))))
    (otherFields_plain st).

(** The onChange handler of the API key field. *)
Definition onApiKeyChange (value : jsstring) (st : PluginState)
  : result unit * PluginState :=
  let w := world st in
  let w := setSettings (mkSettings value (mephistoPrompt (settings w))) w in
  let st :=
    savePlugin
      (mkPlugin w (otherFields st) (persisted st) (otherFields_plain st)) in
  if truthy value then
    let (r, w') :=
      try_catch
        (initialize value ;;;
         notice (lit "API key saved and client initialized"))
        (fun error => notice (lit "Invalid API key"))
        (world st) in
    (r, mkPlugin w' (otherFields st) (persisted st) (otherFields_plain st))
  else (Ok tt, st).

(** The onChange handler of the prompt field. *)
Definition onPromptChange (value : jsstring) (st : PluginState)
  : result unit * PluginState :=
  let w := world st in
  let w := setSettings (mkSettings (geminiApiKey (settings w)) value) w in
  (Ok tt,
   savePlugin
     (mkPlugin w (otherFields st) (persisted st) (otherFields_plain st))).

(** What a user does in the settings tab. *)
Inductive Edit : Type :=
| EditApiKey (value : jsstring)
| EditPrompt (value : jsstring).

Definition applyEdit (st : PluginState) (e : Edit) : PluginState :=
  match e with
  | EditApiKey v => snd (onApiKeyChange v st)
  | EditPrompt v => snd (onPromptChange v st)
  end.

(** What loadSettings would make of the data file as it is now. *)
Definition reloaded (st : PluginState) : object :=
  settingsObj (loadSettings (mkData ∅ (persisted st))).

End SettingTab.
Export SettingTab.

(* ===================================================================== *)
(** ** Notions for the properties below *)
(* ===================================================================== *)

Module Notions.

Definition UnknownError : thrown :=
  ErrorObj (lit "Unknown error occurred during analysis").

(** The two fields of the client are set together, for the same key, and
    the model is the fixed one. *)
Definition clientWf (c : GeminiClient) : Prop :=
  match genAI c, model c with
  | None, None => True
  | Some g, Some m => modelKey m = apiKey g /\ modelName m = MODEL
  | _, _ => False
  end.

(** The calls of a client, as requests. *)
Inductive ClientOp : Type :=
| CallInitialize (apiKey : jsstring)
| CallAnalyzeNote (systemPrompt noteContent : jsstring)
| CallIsInitialized.

Definition runClientOp (w : World) (o : ClientOp) : World :=
  match o with
  | CallInitialize k => snd (initialize k w)
  | CallAnalyzeNote sp nc => snd (analyzeNote sp nc w)
  | CallIsInitialized => snd (isInitialized w)
  end.

(** The model names of the network calls in a log. *)
Definition calledModels (l : list Event) : list jsstring :=
  flat_map (fun e => match e with
                     | NetworkCall name _ => [name]
                     | _ => []
                     end) l.

(** The world once analyzeCurrentNote is past its initialization step:
    the client initialized with the stored key if it was not. *)
Definition lazyInit (w : World) : World :=
  snd ((initialized <- isInitialized ;;
        (if negb initialized then initialize (geminiApiKey (settings w))
         else ret tt)) w).

(** The rendering of the panel's result state. *)
Definition resultState (render : jsstring -> list el) (now text : jsstring)
  : list el :=
  Lens.showAnalysis render now text [].

(** The three guards of analyzeCurrentNote taken together: a key is
    stored, the client is initialized or the key can initialize it, and
    the lens view is open or can be opened. *)
Definition guardsPass (w : World) : bool :=
  truthy (geminiApiKey (settings w)) && clientReady w && panelAvailable w.

(** A show operation that leaves [c] in the lens view. *)
Definition withPanel (c : list el) (w : World) : World :=
  emit (PanelRendered c) (setLensLeaf (Some (mkLens c)) w).

End Notions.
Export Notions.

(* ===================================================================== *)
(** ** Running the plugin's computations symbolically *)
(* ===================================================================== *)

Ltac run_m :=
  cbv beta iota delta
    [bind ret throw get modify tell try_catch notice initialize
     isInitialized generateContent fst snd].

Ltac run_w :=
  cbv beta iota zeta delta
    [bind ret throw get modify tell try_catch notice initialize
     isInitialized activateLensView lensShowLoading lensShowError
     lensShowAnalysis onLensView emit setClient setLensLeaf
     settings geminiClient lensLeaf rightLeaf provider markdownRenderer
     localeNow log genAI model contentEl fst snd negb].

(* ===================================================================== *)
(** ** Strings: trim and blankness *)
(* ===================================================================== *)

Section StringFacts.

Lemma trimStart_whitespaceOnly (s : jsstring) :
  whitespaceOnly s = true -> trimStart s = [].
Proof.
  induction s as [|c r IH]; simpl; [reflexivity|].
  intros H. apply andb_prop in H as [Hc Hr].
  rewrite Hc. exact (IH Hr).
Qed.

Lemma trimStart_nil (s : jsstring) :
  trimStart s = [] -> whitespaceOnly s = true.
Proof.
  induction s as [|c r IH]; simpl; [reflexivity|].
  destruct (isWhiteSpace c) eqn:Hc; [|discriminate].
  intros H. simpl. exact (IH H).
Qed.

Lemma trimStart_head (s : jsstring) (c : N) (r : jsstring) :
  trimStart s = c :: r -> isWhiteSpace c = false.
Proof.
  induction s as [|d t IH]; simpl; [discriminate|].
  destruct (isWhiteSpace d) eqn:Hd; [exact IH|].
  intros H. injection H as -> _. exact Hd.
Qed.

Lemma whitespaceOnly_app (s t : jsstring) :
  whitespaceOnly (s ++ t) = whitespaceOnly s && whitespaceOnly t.
Proof. unfold whitespaceOnly. apply forallb_app. Qed.

Lemma whitespaceOnly_rev (s : jsstring) :
  whitespaceOnly (rev s) = whitespaceOnly s.
Proof.
  induction s as [|c r IH]; [reflexivity|].
  simpl rev. rewrite whitespaceOnly_app, IH. simpl.
  rewrite andb_true_r. apply andb_comm.
Qed.

Lemma rev_nil_inv {A} (l : list A) : rev l = [] -> l = [].
Proof.
  intros H. rewrite <- (rev_involutive l), H. reflexivity.
Qed.

Lemma trim_nil_iff (s : jsstring) :
  trim s = [] <-> whitespaceOnly s = true.
Proof.
  unfold trim, trimEnd. split.
  - intros H. apply rev_nil_inv in H. apply trimStart_nil in H.
    rewrite whitespaceOnly_rev in H.
    destruct (trimStart s) as [|c r] eqn:Hs.
    + apply trimStart_nil. exact Hs.
    + apply trimStart_head in Hs. simpl in H.
      rewrite Hs in H. discriminate.
  - intros H. rewrite (trimStart_whitespaceOnly s H). reflexivity.
Qed.

(** The guard [!s || s.trim() === ''] holds exactly of the empty and the
    whitespace-only strings. *)
Lemma isBlank_whitespaceOnly (s : jsstring) : isBlank s = whitespaceOnly s.
Proof.
  destruct (whitespaceOnly s) eqn:H.
  - apply trim_nil_iff in H. unfold isBlank. rewrite H. simpl.
    apply orb_true_r.
  - unfold isBlank. destruct s as [|c r]; [discriminate|]. simpl.
    destruct (trim (c :: r)) as [|d t] eqn:Ht; [|reflexivity].
    apply trim_nil_iff in Ht. rewrite Ht in H. discriminate.
Qed.

Lemma truthy_whitespaceOnly (s : jsstring) :
  whitespaceOnly s = false -> truthy s = true.
Proof. destruct s; [discriminate|reflexivity]. Qed.

End StringFacts.

(* ===================================================================== *)
(** ** The analysis client *)
(* ===================================================================== *)

Section ClientFacts.

Lemma networkCalls_app (l1 l2 : list Event) :
  networkCalls (l1 ++ l2) = networkCalls l1 ++ networkCalls l2.
Proof. unfold networkCalls. apply flat_map_app. Qed.

Lemma notices_app (l1 l2 : list Event) :
  notices (l1 ++ l2) = notices l1 ++ notices l2.
Proof. unfold notices. apply flat_map_app. Qed.

Lemma panelHistory_app (l1 l2 : list Event) :
  panelHistory (l1 ++ l2) = panelHistory l1 ++ panelHistory l2.
Proof. unfold panelHistory. apply flat_map_app. Qed.

(** analyzeNote on a client without a model. *)
Lemma analyzeNote_uninitialized (w : World) (systemPrompt noteContent : jsstring) :
  model (geminiClient w) = None ->
  analyzeNote systemPrompt noteContent w = (Throw NotInitializedError, w).
Proof.
  intros H. unfold analyzeNote. run_m. rewrite H. reflexivity.
Qed.

(** analyzeNote on blank content. *)
Lemma analyzeNote_blank (w : World) (m : GenerativeModel)
      (systemPrompt noteContent : jsstring) :
  model (geminiClient w) = Some m ->
  whitespaceOnly noteContent = true ->
  analyzeNote systemPrompt noteContent w = (Throw EmptyInputError, w).
Proof.
  intros Hm Hb. unfold analyzeNote. run_m. rewrite Hm.
  rewrite isBlank_whitespaceOnly, Hb. reflexivity.
Qed.

(** Past its two guards analyzeNote logs one call, then (on a failure)
    one console line; it leaves every other part of the world alone. *)
Lemma analyzeNote_call (w : World) (m : GenerativeModel)
      (systemPrompt noteContent : jsstring) :
  model (geminiClient w) = Some m ->
  whitespaceOnly noteContent = false ->
  let call := NetworkCall (modelName m)
                (systemPrompt ++ SEPARATOR ++ noteContent) in
  let r := analyzeNote systemPrompt noteContent w in
  (exists text, fst r = Ok text /\ truthy text = true /\
                provider w (systemPrompt ++ SEPARATOR ++ noteContent)
                  = Responds text /\
                snd r = emit call w)
  \/ (exists e message,
        fst r = Throw (ErrorObj message) /\
        snd r = emit (ConsoleError (lit "Gemini API error:") e)
                     (emit call w)).
Proof.
  intros Hm Hb call r. subst call r. unfold analyzeNote. run_m.
  rewrite Hm, isBlank_whitespaceOnly, Hb. cbn [provider emit].
  destruct (provider w (systemPrompt ++ SEPARATOR ++ noteContent))
    as [text|e] eqn:Hp.
  - destruct (truthy text) eqn:Ht; cbn [negb].
    + left. exists text. repeat split; reflexivity || exact Ht.
    + right. eexists _, _. split; reflexivity.
  - right. destruct e as [message|].
    + destruct (includes message (lit "API_KEY_INVALID"));
        [|destruct (includes message (lit "QUOTA_EXCEEDED"))];
        eexists _, _; split; reflexivity.
    + eexists _, _. split; reflexivity.
Qed.

(** Neither outcome of analyzeNote touches the client's fields. *)
Lemma analyzeNote_client (w : World) (systemPrompt noteContent : jsstring) :
  geminiClient (snd (analyzeNote systemPrompt noteContent w)) = geminiClient w.
Proof.
  destruct (model (geminiClient w)) as [m|] eqn:Hm.
  - destruct (whitespaceOnly noteContent) eqn:Hb.
    + rewrite (analyzeNote_blank w m _ _ Hm Hb). reflexivity.
    + destruct (analyzeNote_call w m systemPrompt noteContent Hm Hb)
        as [(text & _ & _ & _ & ->)|(e & message & _ & ->)]; reflexivity.
  - rewrite (analyzeNote_uninitialized w _ _ Hm). reflexivity.
Qed.

(** Whatever analyzeNote throws is an [Error] with a message. *)
Lemma analyzeNote_throws_Error (w : World) (systemPrompt noteContent : jsstring)
      (e : thrown) :
  fst (analyzeNote systemPrompt noteContent w) = Throw e ->
  exists message, e = ErrorObj message.
Proof.
  destruct (model (geminiClient w)) as [m|] eqn:Hm.
  - destruct (whitespaceOnly noteContent) eqn:Hb.
    + rewrite (analyzeNote_blank w m _ _ Hm Hb). simpl.
      intros [= <-]. eexists. reflexivity.
    + destruct (analyzeNote_call w m systemPrompt noteContent Hm Hb)
        as [(text & -> & _)|(e' & message & -> & _)].
      * discriminate.
      * intros [= <-]. eexists. reflexivity.
  - rewrite (analyzeNote_uninitialized w _ _ Hm). simpl.
    intros [= <-]. eexists. reflexivity.
Qed.

End ClientFacts.

Section ClientClaims.

Lemma analyzeNote_empty_payload (w : World) (m : GenerativeModel)
      (systemPrompt noteContent : jsstring) :
  model (geminiClient w) = Some m ->
  whitespaceOnly noteContent = false ->
  provider w (systemPrompt ++ SEPARATOR ++ noteContent) = Responds [] ->
  fst (analyzeNote systemPrompt noteContent w)
  = Throw (AnalysisFailedError (lit "Empty response from Gemini API")).
Proof.
  intros Hm Hb Hp. unfold analyzeNote. run_m.
  rewrite Hm, isBlank_whitespaceOnly, Hb. cbn [provider emit].
  rewrite Hp. reflexivity.
Qed.

(** C1. On an initialized client with the note "hello", a provider that
    returns an empty payload makes analyzeNote fail with the error of
    message "Analysis failed: Empty response from Gemini API": the
    empty-response error thrown inside the [try] is caught by the same
    function's [catch] and surfaces wrapped as an analysis failure, not as
    the empty-response error. *)
Theorem C1_empty_response_surfaces_wrapped :
  fst (analyzeNote DEFAULT_PROMPT (lit "hello")
         (readyWorld validkey providerEmpty))
  = Throw (AnalysisFailedError (lit "Empty response from Gemini API"))
  /\ AnalysisFailedError (lit "Empty response from Gemini API")
     <> EmptyResponseError.
Proof.
  split.
  - apply (analyzeNote_empty_payload _ (mkModel validkey MODEL));
      reflexivity.
  - discriminate.
Qed.

(** C3, as stated, fails: the note " " is not empty, the client is
    initialized, and analyzeNote sends nothing to the provider. *)
Lemma C3_counterexample :
  isEmpty (lit " ") = false
  /\ model (geminiClient (readyWorld validkey providerCritique))
     = Some (mkModel validkey MODEL)
  /\ analyzeNote DEFAULT_PROMPT (lit " ")
       (readyWorld validkey providerCritique)
     = (Throw EmptyInputError, readyWorld validkey providerCritique)
  /\ networkCalls
       (log (snd (analyzeNote DEFAULT_PROMPT (lit " ")
                    (readyWorld validkey providerCritique)))) = [].
Proof. repeat split; reflexivity. Qed.

(** C3, amended. For every initialized client, every systemPrompt and
    every noteContent that is neither empty nor whitespace-only,
    analyzeNote sends to the provider exactly systemPrompt, the separator
    "\n\n---\n\n", the header "Analyze the following note:", "\n\n" and
    noteContent, in one network call and no more. *)
Theorem C3_one_call_with_full_prompt
        (w : World) (m : GenerativeModel) (systemPrompt noteContent : jsstring) :
  model (geminiClient w) = Some m ->
  whitespaceOnly noteContent = false ->
  networkCalls (log (snd (analyzeNote systemPrompt noteContent w)))
  = networkCalls (log w)
    ++ [systemPrompt ++ (nl ++ nl ++ lit "---" ++ nl ++ nl)
          ++ lit "Analyze the following note:" ++ (nl ++ nl) ++ noteContent].
Proof.
  intros Hm Hb.
  assert (Hfull :
    systemPrompt ++ (nl ++ nl ++ lit "---" ++ nl ++ nl)
      ++ lit "Analyze the following note:" ++ (nl ++ nl) ++ noteContent
    = systemPrompt ++ SEPARATOR ++ noteContent) by reflexivity.
  rewrite Hfull.
  destruct (analyzeNote_call w m systemPrompt noteContent Hm Hb)
    as [(text & _ & _ & _ & ->)|(e & message & _ & ->)];
    cbn [emit log]; repeat rewrite networkCalls_app; simpl;
    rewrite ?app_nil_r; reflexivity.
Qed.

Lemma C3_one_call_with_full_prompt_witness :
  networkCalls
    (log (snd (analyzeNote (lit "P") (lit "hello")
                 (readyWorld validkey providerCritique))))
  = [lit "P" ++ (nl ++ nl ++ lit "---" ++ nl ++ nl)
       ++ lit "Analyze the following note:" ++ (nl ++ nl) ++ lit "hello"].
Proof.
  apply (C3_one_call_with_full_prompt
           (readyWorld validkey providerCritique)
           (mkModel validkey MODEL) (lit "P") (lit "hello"));
    reflexivity.
Defined.

(** C6. For every systemPrompt and noteContent, analyzeNote on a client
    whose model was never set fails with the not-initialized error and
    performs no network call (it leaves the world as it was). *)
Theorem C6_analyze_before_initialize
        (w : World) (systemPrompt noteContent : jsstring) :
  model (geminiClient w) = None ->
  fst (analyzeNote systemPrompt noteContent w) = Throw NotInitializedError
  /\ snd (analyzeNote systemPrompt noteContent w) = w
  /\ networkCalls (log (snd (analyzeNote systemPrompt noteContent w)))
     = networkCalls (log w).
Proof.
  intros H. rewrite (analyzeNote_uninitialized w _ _ H).
  repeat split; reflexivity.
Qed.

Lemma C6_analyze_before_initialize_witness :
  fst (analyzeNote DEFAULT_PROMPT (lit "hello")
         (freshWorld validkey providerCritique))
  = Throw NotInitializedError
  /\ snd (analyzeNote DEFAULT_PROMPT (lit "hello")
            (freshWorld validkey providerCritique))
     = freshWorld validkey providerCritique
  /\ networkCalls
       (log (snd (analyzeNote DEFAULT_PROMPT (lit "hello")
                    (freshWorld validkey providerCritique))))
     = networkCalls (log (freshWorld validkey providerCritique)).
Proof.
  apply (C6_analyze_before_initialize
           (freshWorld validkey providerCritique)). reflexivity.
Defined.

(** C7. initialize fails with the configuration error for the empty
    string and for every whitespace-only key, and leaves the client as it
    was, so an uninitialized client stays uninitialized; with any other
    key initialize succeeds and isInitialized then returns true. *)
Theorem C7_initialize :
  (forall (w : World) (apiKey : jsstring),
      whitespaceOnly apiKey = true ->
      initialize apiKey w = (Throw ConfigurationError, w)
      /\ (model (geminiClient w) = None ->
          fst (isInitialized (snd (initialize apiKey w))) = Ok false))
  /\ (forall (w : World) (apiKey : jsstring),
      whitespaceOnly apiKey = false ->
      fst (initialize apiKey w) = Ok tt
      /\ fst (isInitialized (snd (initialize apiKey w))) = Ok true).
Proof.
  split; intros w apiKey H; unfold initialize;
    rewrite isBlank_whitespaceOnly, H; run_m.
  - split; [reflexivity|]. intros Hm. rewrite Hm. reflexivity.
  - split; reflexivity.
Qed.

Lemma C7_initialize_witness :
  (initialize [] (freshWorld [] providerCritique)
   = (Throw ConfigurationError, freshWorld [] providerCritique)
   /\ initialize (lit "   ") (freshWorld [] providerCritique)
      = (Throw ConfigurationError, freshWorld [] providerCritique)
   /\ fst (isInitialized
             (snd (initialize (lit "   ") (freshWorld [] providerCritique))))
      = Ok false)
  /\ (fst (initialize validkey (freshWorld [] providerCritique)) = Ok tt
      /\ fst (isInitialized
                (snd (initialize validkey (freshWorld [] providerCritique))))
         = Ok true).
Proof.
  destruct C7_initialize as [Hblank Hkey]. split.
  - split; [|split].
    + apply (Hblank (freshWorld [] providerCritique) []). reflexivity.
    + apply (Hblank (freshWorld [] providerCritique) (lit "   ")).
      reflexivity.
    + apply (Hblank (freshWorld [] providerCritique) (lit "   "));
        reflexivity.
  - apply (Hkey (freshWorld [] providerCritique) validkey). reflexivity.
Defined.

(** C9. For every client state, systemPrompt and noteContent, when
    analyzeNote fails the client's two fields are what they were before
    the call, and isInitialized answers as before. *)
Theorem C9_failed_analyzeNote_keeps_client
        (w w' : World) (systemPrompt noteContent : jsstring) (e : thrown) :
  analyzeNote systemPrompt noteContent w = (Throw e, w') ->
  genAI (geminiClient w') = genAI (geminiClient w)
  /\ model (geminiClient w') = model (geminiClient w)
  /\ fst (isInitialized w') = fst (isInitialized w).
Proof.
  intros H.
  assert (Hc : geminiClient w' = geminiClient w).
  { rewrite <- (analyzeNote_client w systemPrompt noteContent), H.
    reflexivity. }
  run_m. rewrite Hc. repeat split; reflexivity.
Qed.

Lemma C9_failed_analyzeNote_keeps_client_witness :
  genAI (geminiClient
           (snd (analyzeNote DEFAULT_PROMPT (lit "hello")
                   (readyWorld validkey providerInvalidKey))))
  = Some (mkGenAI validkey)
  /\ model (geminiClient
              (snd (analyzeNote DEFAULT_PROMPT (lit "hello")
                      (readyWorld validkey providerInvalidKey))))
     = Some (mkModel validkey MODEL)
  /\ fst (isInitialized
            (snd (analyzeNote DEFAULT_PROMPT (lit "hello")
                    (readyWorld validkey providerInvalidKey))))
     = Ok true.
Proof.
  apply (C9_failed_analyzeNote_keeps_client
           (readyWorld validkey providerInvalidKey) _
           DEFAULT_PROMPT (lit "hello") InvalidApiKeyError).
  reflexivity.
Defined.

End ClientClaims.

(* ===================================================================== *)
(** ** The settings store *)
(* ===================================================================== *)

Section SettingsClaims.

Lemma toObject_no_proto (cfg : ForestMiniSettings) :
  toObject cfg !! PROTO = None.
Proof.
  unfold toObject.
  rewrite lookup_insert_ne by discriminate.
  apply lookup_singleton_ne. discriminate.
Qed.

(** Assigning the properties of a source one by one to a target that has
    no own [PROTO] and still answers it with the accessor: the source's
    fields, but for [PROTO], are laid over the target's. *)
Lemma assignFrom_plain (t : JsObject) (s : object) :
  own t !! PROTO = None ->
  protoAccessor t = true ->
  own (assignFrom t (Some s)) = delete PROTO s ∪ own t
  /\ (s !! PROTO = None -> protoAccessor (assignFrom t (Some s)) = true).
Proof.
  intros Hown Hacc. unfold assignFrom.
  apply (map_fold_weak_ind
           (fun r m => own r = delete PROTO m ∪ own t
                       /\ (m !! PROTO = None -> protoAccessor r = true))).
  - split; [|intros _; exact Hacc].
    rewrite delete_empty. symmetry. apply (left_id_L ∅ (∪)).
  - intros i x m r Hi [Hr Hra]. unfold assignProperty.
    destruct (String.eqb i PROTO) eqn:E.
    + apply String.eqb_eq in E. subst i.
      assert (Hnone : own r !! PROTO = None).
      { rewrite Hr. apply lookup_union_None. split; [|exact Hown].
        apply lookup_delete_eq. }
      rewrite Hnone, (Hra Hi). cbn [own protoAccessor].
      split.
      * rewrite delete_insert_eq. exact Hr.
      * rewrite lookup_insert_eq. discriminate.
    + apply String.eqb_neq in E. cbn [own protoAccessor]. split.
      * rewrite Hr, delete_insert_ne by congruence.
        apply insert_union_l.
      * rewrite lookup_insert_ne by exact E. exact Hra.
Qed.

Lemma loadSettings_merge (st : PluginData) :
  settingsObj (loadSettings st)
  = match dataFile st with
    | Some blob => delete PROTO blob ∪ toObject DEFAULT_SETTINGS
    | None => toObject DEFAULT_SETTINGS
    end.
Proof.
  unfold loadSettings, Object_assign, loadData. cbn [foldl settingsObj].
  destruct (assignFrom_plain emptyObject (toObject DEFAULT_SETTINGS)
              (lookup_empty PROTO) eq_refl) as [Hd Hda].
  rewrite (delete_id _ _ (toObject_no_proto DEFAULT_SETTINGS)) in Hd.
  cbn [own emptyObject] in Hd. rewrite (right_id_L ∅ (∪)) in Hd.
  specialize (Hda (toObject_no_proto DEFAULT_SETTINGS)).
  destruct (dataFile st) as [blob|]; [|exact Hd].
  assert (Hp : own (assignFrom emptyObject (Some (toObject DEFAULT_SETTINGS)))
               !! PROTO = None)
    by (rewrite Hd; apply toObject_no_proto).
  destruct (assignFrom_plain _ blob Hp Hda) as [-> _].
  rewrite Hd. reflexivity.
Qed.

Lemma loadSettings_no_proto (st : PluginData) :
  settingsObj (loadSettings st) !! PROTO = None.
Proof.
  rewrite loadSettings_merge. destruct (dataFile st) as [blob|].
  - apply lookup_union_None. split; [apply lookup_delete_eq|].
    apply toObject_no_proto.
  - apply toObject_no_proto.
Qed.




End SettingsClaims.

(* ===================================================================== *)
(** ** The result panel *)
(* ===================================================================== *)

Section PanelClaims.

Variable render : jsstring -> list el.

Lemma applyOp_replaces (o : PanelOp) (c : list el) :
  applyOp render o c = applyOp render o [].
Proof. destruct o; reflexivity. Qed.

Lemma applyOp_variant (o : PanelOp) (c : list el) :
  variantsPresent (applyOp render o c) = [Some (variantOfOp o)].
Proof. destruct o; reflexivity. Qed.

(** C8. Each of the four panel operations leaves in contentEl only what
    it renders itself, whatever was there before; so after any sequence of
    operations the children of contentEl are what the last operation
    renders on an empty container, and on an opened panel they are the
    rendering of exactly one Panel State variant (the last operation's, or
    Welcome when there was none). *)
Theorem C8_one_rendering_at_a_time :
  (forall (o : PanelOp) (c : list el),
      applyOp render o c = applyOp render o []
      /\ variantsPresent (applyOp render o c) = [Some (variantOfOp o)])
  /\ (forall (ops : list PanelOp) (o : PanelOp) (c : list el),
      fold_left (fun c o => applyOp render o c) (ops ++ [o]) c
      = applyOp render o [])
  /\ (forall ops : list PanelOp,
      variantsPresent
        (fold_left (fun c o => applyOp render o c) ops (contentEl onOpen))
      = [Some (List.last (List.map variantOfOp ops) Welcome)]).
Proof.
  split; [|split].
  - intros o c. split; [apply applyOp_replaces|apply applyOp_variant].
  - intros ops o c. rewrite fold_left_app. cbn [fold_left].
    apply applyOp_replaces.
  - intros ops. induction ops as [|o ops _] using rev_ind.
    + reflexivity.
    + rewrite fold_left_app, List.map_app. cbn [List.map fold_left].
      rewrite last_last.
      apply applyOp_variant.
Qed.

End PanelClaims.

(* ===================================================================== *)
(** ** The analyze command *)
(* ===================================================================== *)

Section CommandFacts.

(** Once the key is set, the client is or can be initialized and the lens
    view is or can be opened, the command runs its try block in the world
    [untilAnalysis] describes. *)
Lemma analyzeCurrentNote_past_guards (w : World) (editorValue : jsstring) :
  truthy (geminiApiKey (settings w)) = true ->
  clientReady w = true ->
  panelAvailable w = true ->
  analyzeCurrentNote editorValue w
  = tryBlock (mephistoPrompt (settings w)) editorValue (untilAnalysis w).
Proof.
  destruct w as [s [g m] leaf right p md now l].
  unfold clientReady, panelAvailable.
  cbn [settings geminiClient model lensLeaf rightLeaf].
  intros Hkey Hready Hpanel.
  unfold analyzeCurrentNote, untilAnalysis, tryBlock.
  destruct m as [m|].
  - run_w. rewrite Hkey.
    destruct leaf as [v|]; [reflexivity|]. rewrite Hpanel. reflexivity.
  - apply negb_true_iff in Hready.
    run_w. rewrite Hkey, isBlank_whitespaceOnly, Hready.
    destruct leaf as [v|]; [reflexivity|]. rewrite Hpanel. reflexivity.
Qed.

(** After onload with a stored key that is only whitespace the client is
    still uninitialized: the state the third guard of the command meets. *)
Lemma onloadClient_whitespace_key (w : World) :
  whitespaceOnly (geminiApiKey (settings w)) = true ->
  fst (onloadClient w) = Ok tt
  /\ model (geminiClient (snd (onloadClient w))) = None.
Proof.
  destruct w as [s c leaf right p md now l]. cbn [settings].
  intros Hws. unfold onloadClient, newClient. run_w.
  destruct (truthy (geminiApiKey s)); [|split; reflexivity].
  rewrite isBlank_whitespaceOnly, Hws. split; reflexivity.
Qed.

(** What the command has done when it reaches its try block. *)
Lemma untilAnalysis_spec (w : World) :
  clientReady w = true ->
  panelAvailable w = true ->
  log (untilAnalysis w)
  = log w ++ activationEvents w
      ++ [PanelRendered loadingState; Notice (lit "Analyzing with Mephisto...")]
  /\ lensLeaf (untilAnalysis w) = Some (mkLens loadingState)
  /\ (exists m, model (geminiClient (untilAnalysis w)) = Some m)
  /\ provider (untilAnalysis w) = provider w
  /\ settings (untilAnalysis w) = settings w.
Proof.
  destruct w as [s [g m] leaf right p md now l].
  unfold clientReady, panelAvailable, activationEvents.
  cbn [settings geminiClient model lensLeaf rightLeaf].
  intros Hready Hpanel. unfold untilAnalysis.
  destruct m as [m|].
  - run_w. destruct leaf as [v|]; [|rewrite Hpanel]; run_w;
      repeat rewrite <- app_assoc; (repeat split; try reflexivity);
      eexists; reflexivity.
  - apply negb_true_iff in Hready.
    run_w. rewrite isBlank_whitespaceOnly, Hready.
    destruct leaf as [v|]; [|rewrite Hpanel]; run_w;
      repeat rewrite <- app_assoc; (repeat split; try reflexivity);
      eexists; reflexivity.
Qed.

Lemma analyzeNote_lensLeaf (w : World) (systemPrompt noteContent : jsstring) :
  lensLeaf (snd (analyzeNote systemPrompt noteContent w)) = lensLeaf w.
Proof.
  destruct (model (geminiClient w)) as [m|] eqn:Hm.
  - destruct (whitespaceOnly noteContent) eqn:Hb.
    + rewrite (analyzeNote_blank w m _ _ Hm Hb). reflexivity.
    + destruct (analyzeNote_call w m systemPrompt noteContent Hm Hb)
        as [(text & _ & _ & _ & ->)|(e & message & _ & ->)]; reflexivity.
  - rewrite (analyzeNote_uninitialized w _ _ Hm). reflexivity.
Qed.

(** The try block on a blank note: the error state, a notice, and
    nothing else. *)
Lemma tryBlock_blank (w1 : World) (v : LensView) (prompt editorValue : jsstring) :
  lensLeaf w1 = Some v ->
  whitespaceOnly editorValue = true ->
  tryBlock prompt editorValue w1
  = (Ok tt,
     emit (Notice (lit "Current note is empty"))
       (emit (PanelRendered (errorState (lit "Current note is empty")))
          (setLensLeaf
             (Some (mkLens (errorState (lit "Current note is empty"))))
             w1))).
Proof.
  destruct w1 as [s c leaf right p md now l].
  cbn [lensLeaf]. intros -> Hb.
  unfold tryBlock. rewrite isBlank_whitespaceOnly, Hb.
  reflexivity.
Qed.

(** The try block when the analysis call throws: the catch logs the
    value, shows its message in the error state and announces it with the
    prefix "Analysis failed: ". *)
Lemma tryBlock_failure (w1 w2 : World) (v : LensView)
      (prompt editorValue : jsstring) (e : thrown) :
  whitespaceOnly editorValue = false ->
  analyzeNote prompt editorValue w1 = (Throw e, w2) ->
  lensLeaf w2 = Some v ->
  tryBlock prompt editorValue w1
  = (Ok tt,
     emit (Notice (lit "Analysis failed: " ++ messageOf e))
       (emit (PanelRendered (errorState (messageOf e)))
          (setLensLeaf (Some (mkLens (errorState (messageOf e))))
             (emit (ConsoleError (lit "Analysis error:") e) w2)))).
Proof.
  intros Hb Hcall Hleaf.
  unfold tryBlock. rewrite isBlank_whitespaceOnly, Hb.
  cbv beta iota delta [try_catch bind]. rewrite Hcall.
  destruct w2 as [s c leaf right p md now l].
  cbn [lensLeaf] in Hleaf. subst leaf.
  destruct e; reflexivity.
Qed.

Lemma analyzeNote_invalid_key (w : World) (m : GenerativeModel)
      (systemPrompt noteContent providerMessage : jsstring) :
  model (geminiClient w) = Some m ->
  whitespaceOnly noteContent = false ->
  provider w (systemPrompt ++ SEPARATOR ++ noteContent)
  = Rejects (ErrorObj providerMessage) ->
  includes providerMessage (lit "API_KEY_INVALID") = true ->
  fst (analyzeNote systemPrompt noteContent w) = Throw InvalidApiKeyError.
Proof.
  intros Hm Hb Hp Hi. unfold analyzeNote. run_m.
  rewrite Hm, isBlank_whitespaceOnly, Hb. cbn [provider emit].
  rewrite Hp, Hi. reflexivity.
Qed.

End CommandFacts.

Section CommandClaims.

Lemma log_emit (e : Event) (w : World) : log (emit e w) = log w ++ [e].
Proof. reflexivity. Qed.

(** C2, as stated, fails: when the provider rejects the call with the
    credential-invalid signal the panel shows the error state for
    "Invalid API key. Please check your settings.", but no notice carries
    that same message; the failure notice is that message behind the
    prefix "Analysis failed: ". *)
Lemma C2_counterexample :
  lensLeaf (snd (analyzeCurrentNote (lit "hello")
                   (readyWorld validkey providerInvalidKey)))
  = Some (mkLens (errorState
                    (lit "Invalid API key. Please check your settings.")))
  /\ notices (log (snd (analyzeCurrentNote (lit "hello")
                          (readyWorld validkey providerInvalidKey))))
     = [lit "Analyzing with Mephisto...";
        lit "Analysis failed: Invalid API key. Please check your settings."]
  /\ ~ List.In (lit "Invalid API key. Please check your settings.")
         (notices (log (snd (analyzeCurrentNote (lit "hello")
                               (readyWorld validkey providerInvalidKey))))).
Proof.
  assert (Hn : notices (log (snd (analyzeCurrentNote (lit "hello")
                                    (readyWorld validkey providerInvalidKey))))
               = [lit "Analyzing with Mephisto...";
                  lit "Analysis failed: Invalid API key. Please check your settings."])
    by (vm_compute; reflexivity).
  split; [vm_compute; reflexivity|]. split; [exact Hn|].
  rewrite Hn. intros [H|[H|[]]]; vm_compute in H; discriminate H.
Qed.

(** C2, amended. For every failure of the analysis call that the command
    catches, the catch has exactly two user-visible effects: the message of
    the error rendered in the panel's error state, and a notice whose text
    is "Analysis failed: " followed by that message. In particular, when
    the provider rejects with a message containing API_KEY_INVALID the
    panel shows Error("Invalid API key. Please check your settings.") and
    the notice reads "Analysis failed: Invalid API key. Please check your
    settings.". *)
Theorem C2_failure_shown_and_announced
        (w w2 : World) (editorValue : jsstring) (e : thrown) :
  truthy (geminiApiKey (settings w)) = true ->
  clientReady w = true ->
  panelAvailable w = true ->
  whitespaceOnly editorValue = false ->
  analyzeNote (mephistoPrompt (settings w)) editorValue (untilAnalysis w)
  = (Throw e, w2) ->
  exists w3,
    analyzeCurrentNote editorValue w = (Ok tt, w3)
    /\ (exists message, e = ErrorObj message)
    /\ log w3
       = log w2 ++ [ConsoleError (lit "Analysis error:") e;
                    PanelRendered (errorState (messageOf e));
                    Notice (lit "Analysis failed: " ++ messageOf e)]
    /\ List.filter userVisible (log w3)
       = List.filter userVisible (log w2)
           ++ [PanelRendered (errorState (messageOf e));
               Notice (lit "Analysis failed: " ++ messageOf e)]
    /\ lensLeaf w3 = Some (mkLens (errorState (messageOf e)))
    /\ (forall providerMessage,
          provider w (mephistoPrompt (settings w) ++ SEPARATOR ++ editorValue)
          = Rejects (ErrorObj providerMessage) ->
          includes providerMessage (lit "API_KEY_INVALID") = true ->
          messageOf e = lit "Invalid API key. Please check your settings.").
Proof.
  intros Hkey Hready Hpanel Hb Hcall.
  destruct (untilAnalysis_spec w Hready Hpanel)
    as (_ & Hleaf & (m & Hm) & Hprov & _).
  assert (Hleaf2 : lensLeaf w2 = Some (mkLens loadingState)).
  { rewrite <- Hleaf,
      <- (analyzeNote_lensLeaf (untilAnalysis w)
            (mephistoPrompt (settings w)) editorValue), Hcall.
    reflexivity. }
  rewrite (analyzeCurrentNote_past_guards w editorValue Hkey Hready Hpanel).
  rewrite (tryBlock_failure _ w2 _ _ _ e Hb Hcall Hleaf2).
  eexists. split; [reflexivity|].
  assert (Hlog :
    log (emit (Notice (lit "Analysis failed: " ++ messageOf e))
           (emit (PanelRendered (errorState (messageOf e)))
              (setLensLeaf (Some (mkLens (errorState (messageOf e))))
                 (emit (ConsoleError (lit "Analysis error:") e) w2))))
    = log w2 ++ [ConsoleError (lit "Analysis error:") e;
                 PanelRendered (errorState (messageOf e));
                 Notice (lit "Analysis failed: " ++ messageOf e)]).
  { cbn [emit setLensLeaf log]. repeat rewrite <- app_assoc. reflexivity. }
  split; [|split; [|split; [|split]]].
  - apply (analyzeNote_throws_Error (untilAnalysis w)
             (mephistoPrompt (settings w)) editorValue).
    rewrite Hcall. reflexivity.
  - exact Hlog.
  - rewrite Hlog, List.filter_app. reflexivity.
  - reflexivity.
  - intros pm Hp Hi. rewrite <- Hprov in Hp.
    pose proof (analyzeNote_invalid_key (untilAnalysis w) m
                  (mephistoPrompt (settings w)) editorValue pm Hm Hb Hp Hi)
      as Hk.
    rewrite Hcall in Hk. cbn [fst] in Hk. injection Hk as ->. reflexivity.
Qed.

Lemma C2_failure_shown_and_announced_witness :
  exists w3,
    analyzeCurrentNote (lit "hello") (readyWorld validkey providerInvalidKey)
    = (Ok tt, w3)
    /\ lensLeaf w3
       = Some (mkLens (errorState
                         (lit "Invalid API key. Please check your settings.")))
    /\ List.filter userVisible (log w3)
       = List.filter userVisible
           (log (snd (analyzeNote DEFAULT_PROMPT (lit "hello")
                        (untilAnalysis
                           (readyWorld validkey providerInvalidKey)))))
         ++ [PanelRendered
               (errorState
                  (lit "Invalid API key. Please check your settings."));
             Notice
               (lit "Analysis failed: Invalid API key. Please check your settings.")].
Proof.
  destruct (C2_failure_shown_and_announced
              (readyWorld validkey providerInvalidKey)
              (snd (analyzeNote DEFAULT_PROMPT (lit "hello")
                      (untilAnalysis
                         (readyWorld validkey providerInvalidKey))))
              (lit "hello") InvalidApiKeyError
              eq_refl eq_refl eq_refl eq_refl eq_refl)
    as (w3 & Hrun & _ & _ & Hvisible & Hleaf & _).
  exists w3. split; [exact Hrun|]. split; [exact Hleaf|exact Hvisible].
Defined.

(** C5, as stated, fails: with the key " " (set, but whitespace-only), a
    client not yet initialized and an empty note, the command stops at the
    initialization step; the panel never shows Loading nor the error. *)
Lemma C5_counterexample :
  truthy (geminiApiKey (settings (freshWorld (lit " ") providerCritique)))
  = true
  /\ whitespaceOnly [] = true
  /\ analyzeCurrentNote [] (freshWorld (lit " ") providerCritique)
     = (Ok tt,
        emit (Notice (lit
                "Failed to initialize Gemini client. Check your API key."))
             (freshWorld (lit " ") providerCritique))
  /\ panelHistory
       (log (snd (analyzeCurrentNote []
                    (freshWorld (lit " ") providerCritique)))) = []
  /\ lensLeaf (snd (analyzeCurrentNote []
                      (freshWorld (lit " ") providerCritique))) = None.
Proof. repeat split; vm_compute; reflexivity. Qed.

(** C5, amended. For every run of the analyze command with a non-empty
    API key, a client that is initialized or a key that is not
    whitespace-only, a lens view that is open or can be opened, and an
    empty or whitespace-only document text: the panel is shown in its
    Loading state and then in Error("Current note is empty"), a notice with
    that message is emitted, and no network call is made. *)
Theorem C5_blank_note_shows_error
        (w : World) (editorValue : jsstring) :
  truthy (geminiApiKey (settings w)) = true ->
  clientReady w = true ->
  panelAvailable w = true ->
  whitespaceOnly editorValue = true ->
  exists w',
    analyzeCurrentNote editorValue w = (Ok tt, w')
    /\ log w'
       = log w ++ activationEvents w
           ++ [PanelRendered loadingState;
               Notice (lit "Analyzing with Mephisto...");
               PanelRendered (errorState (lit "Current note is empty"));
               Notice (lit "Current note is empty")]
    /\ lensLeaf w' = Some (mkLens (errorState (lit "Current note is empty")))
    /\ networkCalls (log w') = networkCalls (log w).
Proof.
  intros Hkey Hready Hpanel Hb.
  destruct (untilAnalysis_spec w Hready Hpanel) as (Hlog & Hleaf & _).
  rewrite (analyzeCurrentNote_past_guards w editorValue Hkey Hready Hpanel).
  rewrite (tryBlock_blank _ _ _ _ Hleaf Hb).
  eexists. split; [reflexivity|].
  assert (Hlog' :
    log (emit (Notice (lit "Current note is empty"))
           (emit (PanelRendered (errorState (lit "Current note is empty")))
              (setLensLeaf
                 (Some (mkLens (errorState (lit "Current note is empty"))))
                 (untilAnalysis w))))
    = log w ++ activationEvents w
        ++ [PanelRendered loadingState;
            Notice (lit "Analyzing with Mephisto...");
            PanelRendered (errorState (lit "Current note is empty"));
            Notice (lit "Current note is empty")]).
  { cbn [emit setLensLeaf log]. rewrite Hlog.
    repeat rewrite <- app_assoc. reflexivity. }
  split; [exact Hlog'|]. split; [reflexivity|].
  rewrite Hlog'. repeat rewrite networkCalls_app.
  unfold activationEvents. destruct (lensLeaf w); simpl;
    apply app_nil_r.
Qed.

Lemma C5_blank_note_shows_error_witness :
  exists w',
    analyzeCurrentNote [32; 32; 10; 32; 32]
      (freshWorld validkey providerCritique) = (Ok tt, w')
    /\ lensLeaf w' = Some (mkLens (errorState (lit "Current note is empty")))
    /\ networkCalls (log w') = [].
Proof.
  destruct (C5_blank_note_shows_error
              (freshWorld validkey providerCritique) [32; 32; 10; 32; 32]
              eq_refl eq_refl eq_refl eq_refl)
    as (w' & Hrun & _ & Hleaf & Hnet).
  exists w'. split; [exact Hrun|]. split; [exact Hleaf|exact Hnet].
Defined.

(** C10. If the stored API key is non-empty but whitespace-only and the
    client is uninitialized, the command passes the empty-key guard and
    stops at the initialization step: its only effect is the notice
    "Failed to initialize Gemini client. Check your API key." (which is
    not the missing-key notice); the panel is left as it was and no
    network call is made. *)
Theorem C10_whitespace_key_stops_at_initialize
        (w : World) (editorValue : jsstring) :
  isEmpty (geminiApiKey (settings w)) = false ->
  whitespaceOnly (geminiApiKey (settings w)) = true ->
  model (geminiClient w) = None ->
  analyzeCurrentNote editorValue w
  = (Ok tt,
     emit (Notice (lit
             "Failed to initialize Gemini client. Check your API key.")) w)
  /\ lit "Failed to initialize Gemini client. Check your API key."
     <> lit "Please set your Gemini API key in settings first."
  /\ lensLeaf (snd (analyzeCurrentNote editorValue w)) = lensLeaf w
  /\ panelHistory (log (snd (analyzeCurrentNote editorValue w)))
     = panelHistory (log w)
  /\ networkCalls (log (snd (analyzeCurrentNote editorValue w)))
     = networkCalls (log w).
Proof.
  intros Hkey Hws Hm.
  assert (Hrun :
    analyzeCurrentNote editorValue w
    = (Ok tt,
       emit (Notice (lit
               "Failed to initialize Gemini client. Check your API key.")) w)).
  { destruct w as [s [g m] leaf right p md now l].
    cbn [settings geminiClient model] in Hkey, Hws, Hm. subst m.
    unfold analyzeCurrentNote. run_w.
    unfold truthy. rewrite Hkey. cbn [negb].
    rewrite isBlank_whitespaceOnly, Hws. reflexivity. }
  rewrite Hrun. cbn [snd]. rewrite log_emit.
  split; [reflexivity|]. split; [discriminate|]. split; [reflexivity|].
  rewrite panelHistory_app, networkCalls_app. simpl.
  split; apply app_nil_r.
Qed.

Lemma C10_whitespace_key_stops_at_initialize_witness :
  analyzeCurrentNote (lit "hello") (freshWorld (lit "   ") providerCritique)
  = (Ok tt,
     emit (Notice (lit
             "Failed to initialize Gemini client. Check your API key."))
          (freshWorld (lit "   ") providerCritique)).
Proof.
  apply (C10_whitespace_key_stops_at_initialize
           (freshWorld (lit "   ") providerCritique) (lit "hello"));
    reflexivity.
Defined.

End CommandClaims.

(* ===================================================================== *)
(** ** More on strings: includes *)
(* ===================================================================== *)

Section IncludesFacts.

Lemma includes_unfold (s p : jsstring) :
  includes s p
  = startsWith s p || match s with
                      | [] => false
                      | _ :: s' => includes s' p
                      end.
Proof. destruct s; reflexivity. Qed.

Lemma startsWith_app (p t : jsstring) : startsWith (p ++ t) p = true.
Proof.
  induction p as [|a p IH]; [destruct t; reflexivity|].
  simpl. rewrite N.eqb_refl. exact IH.
Qed.

Lemma startsWith_inv (p s : jsstring) :
  startsWith s p = true -> exists t, s = p ++ t.
Proof.
  revert s. induction p as [|a p IH]; intros s H.
  - exists s. reflexivity.
  - destruct s as [|b s]; [discriminate|]. cbn [startsWith] in H.
    apply andb_prop in H as [Hab Hs]. apply N.eqb_eq in Hab. subst b.
    destruct (IH s Hs) as [t ->]. exists t. reflexivity.
Qed.

Lemma includes_app (pre p post : jsstring) :
  includes (pre ++ p ++ post) p = true.
Proof.
  induction pre as [|a pre IH].
  - simpl app. rewrite includes_unfold, startsWith_app. reflexivity.
  - simpl app.
    change (includes (a :: pre ++ p ++ post) p)
      with (startsWith (a :: pre ++ p ++ post) p
            || includes (pre ++ p ++ post) p).
    rewrite IH. apply orb_true_r.
Qed.

Lemma includes_inv (s p : jsstring) :
  includes s p = true -> exists pre post, s = pre ++ p ++ post.
Proof.
  induction s as [|a s IH]; rewrite includes_unfold; intros H.
  - rewrite orb_false_r in H. apply startsWith_inv in H as [t Ht].
    exists [], t. exact Ht.
  - apply orb_prop in H as [H|H].
    + apply startsWith_inv in H as [t Ht]. exists [], t. exact Ht.
    + destruct (IH H) as (pre & post & Hs).
      exists (a :: pre), post. rewrite Hs. reflexivity.
Qed.

End IncludesFacts.

(* ===================================================================== *)
(** ** The analysis client, beyond the claims *)
(* ===================================================================== *)

Section ClientExtras.

(** What analyzeNote does once both guards are passed and the provider
    has rejected the call: one call logged, one console line, and an error
    picked by [pick]. *)
Lemma analyzeNote_rejected (w : World) (m : GenerativeModel)
      (systemPrompt noteContent : jsstring) (e : thrown) :
  model (geminiClient w) = Some m ->
  whitespaceOnly noteContent = false ->
  provider w (systemPrompt ++ SEPARATOR ++ noteContent) = Rejects e ->
  analyzeNote systemPrompt noteContent w
  = (Throw
       match e with
       | ErrorObj message =>
           if includes message (lit "API_KEY_INVALID") then InvalidApiKeyError
           else if includes message (lit "QUOTA_EXCEEDED")
                then QuotaExceededError
                else AnalysisFailedError message
       | NonError => UnknownError
       end,
     emit (ConsoleError (lit "Gemini API error:") e)
       (emit (NetworkCall (modelName m)
                (systemPrompt ++ SEPARATOR ++ noteContent)) w)).
Proof.
  intros Hm Hb Hp. unfold analyzeNote. run_m.
  rewrite Hm, isBlank_whitespaceOnly, Hb. cbn [provider emit].
  rewrite Hp. destruct e as [message|]; [|reflexivity].
  destruct (includes message (lit "API_KEY_INVALID")); [reflexivity|].
  destruct (includes message (lit "QUOTA_EXCEEDED")); reflexivity.
Qed.

Lemma analyzeNote_responded (w : World) (m : GenerativeModel)
      (systemPrompt noteContent text : jsstring) :
  model (geminiClient w) = Some m ->
  whitespaceOnly noteContent = false ->
  provider w (systemPrompt ++ SEPARATOR ++ noteContent) = Responds text ->
  truthy text = true ->
  analyzeNote systemPrompt noteContent w
  = (Ok text,
     emit (NetworkCall (modelName m)
             (systemPrompt ++ SEPARATOR ++ noteContent)) w).
Proof.
  intros Hm Hb Hp Ht. unfold analyzeNote. run_m.
  rewrite Hm, isBlank_whitespaceOnly, Hb. cbn [provider emit].
  rewrite Hp, Ht. reflexivity.
Qed.

(** X1. On an initialized client, an empty or whitespace-only note makes
    analyzeNote fail with "Note content is empty" before anything is sent:
    the world, and with it the log of network calls, is unchanged. *)
Theorem X1_blank_note_rejected_before_call
        (w : World) (m : GenerativeModel) (systemPrompt noteContent : jsstring) :
  model (geminiClient w) = Some m ->
  whitespaceOnly noteContent = true ->
  analyzeNote systemPrompt noteContent w = (Throw EmptyInputError, w).
Proof. apply analyzeNote_blank. Qed.

Lemma X1_blank_note_rejected_before_call_witness :
  analyzeNote DEFAULT_PROMPT [32; 10; 9; 0xA0; 0x3000]
    (readyWorld validkey providerCritique)
  = (Throw EmptyInputError, readyWorld validkey providerCritique).
Proof.
  apply (X1_blank_note_rejected_before_call
           (readyWorld validkey providerCritique) (mkModel validkey MODEL));
    reflexivity.
Defined.

(** X2. analyzeNote returns a text exactly when the client is initialized,
    the note is not blank and the provider answers the full prompt with a
    non-empty text; the text returned is the provider's, unchanged, and the
    only effect is the one network call. *)
Theorem X2_success_returns_provider_text
        (w : World) (systemPrompt noteContent text : jsstring) :
  fst (analyzeNote systemPrompt noteContent w) = Ok text ->
  text <> []
  /\ whitespaceOnly noteContent = false
  /\ provider w (systemPrompt ++ SEPARATOR ++ noteContent) = Responds text
  /\ exists m, model (geminiClient w) = Some m
               /\ snd (analyzeNote systemPrompt noteContent w)
                  = emit (NetworkCall (modelName m)
                            (systemPrompt ++ SEPARATOR ++ noteContent)) w.
Proof.
  destruct (model (geminiClient w)) as [m|] eqn:Hm.
  - destruct (whitespaceOnly noteContent) eqn:Hb.
    + rewrite (analyzeNote_blank w m _ _ Hm Hb). discriminate.
    + destruct (analyzeNote_call w m systemPrompt noteContent Hm Hb)
        as [(t & Hr & Ht & Hp & Hw)|(e & message & Hr & _)];
        rewrite Hr; [|discriminate].
      intros [= ->]. split; [|split; [reflexivity|split; [exact Hp|]]].
      * intros ->. discriminate Ht.
      * exists m. split; [reflexivity|exact Hw].
  - rewrite (analyzeNote_uninitialized w _ _ Hm). discriminate.
Qed.

Lemma X2_success_returns_provider_text_witness :
  lit "Critique: ..." <> []
  /\ provider (readyWorld validkey providerCritique)
       (DEFAULT_PROMPT ++ SEPARATOR ++ lit "hello")
     = Responds (lit "Critique: ...").
Proof.
  destruct (X2_success_returns_provider_text
              (readyWorld validkey providerCritique)
              DEFAULT_PROMPT (lit "hello") (lit "Critique: ...") eq_refl)
    as (Hne & _ & Hp & _).
  split; [exact Hne|exact Hp].
Defined.

(** X3. Conversely, on an initialized client and a note that is not blank,
    a provider that answers the full prompt with a non-empty text makes
    analyzeNote return that text, with one network call and no console
    line. *)
Theorem X3_provider_text_is_returned
        (w : World) (m : GenerativeModel)
        (systemPrompt noteContent text : jsstring) :
  model (geminiClient w) = Some m ->
  whitespaceOnly noteContent = false ->
  provider w (systemPrompt ++ SEPARATOR ++ noteContent) = Responds text ->
  text <> [] ->
  analyzeNote systemPrompt noteContent w
  = (Ok text,
     emit (NetworkCall (modelName m)
             (systemPrompt ++ SEPARATOR ++ noteContent)) w).
Proof.
  intros Hm Hb Hp Hne. apply analyzeNote_responded; try assumption.
  destruct text; [contradiction|reflexivity].
Qed.

Lemma X3_provider_text_is_returned_witness :
  fst (analyzeNote DEFAULT_PROMPT (lit "hello")
         (readyWorld validkey providerCritique))
  = Ok (lit "Critique: ...").
Proof.
  rewrite (X3_provider_text_is_returned
             (readyWorld validkey providerCritique) (mkModel validkey MODEL)
             DEFAULT_PROMPT (lit "hello") (lit "Critique: ...")
             eq_refl eq_refl eq_refl ltac:(discriminate)).
  reflexivity.
Defined.

(** X4. When the provider rejects the call with an Error whose message
    contains API_KEY_INVALID anywhere, analyzeNote fails with "Invalid API
    key. Please check your settings.", whatever else the message holds
    (QUOTA_EXCEEDED included: the credential test comes first), after one
    network call and one console line. *)
Theorem X4_invalid_key_translated
        (w : World) (m : GenerativeModel)
        (systemPrompt noteContent pre post : jsstring) :
  model (geminiClient w) = Some m ->
  whitespaceOnly noteContent = false ->
  provider w (systemPrompt ++ SEPARATOR ++ noteContent)
  = Rejects (ErrorObj (pre ++ lit "API_KEY_INVALID" ++ post)) ->
  analyzeNote systemPrompt noteContent w
  = (Throw InvalidApiKeyError,
     emit (ConsoleError (lit "Gemini API error:")
             (ErrorObj (pre ++ lit "API_KEY_INVALID" ++ post)))
       (emit (NetworkCall (modelName m)
                (systemPrompt ++ SEPARATOR ++ noteContent)) w)).
Proof.
  intros Hm Hb Hp.
  rewrite (analyzeNote_rejected w m _ _ _ Hm Hb Hp), includes_app.
  reflexivity.
Qed.

Lemma X4_invalid_key_translated_witness :
  fst (analyzeNote DEFAULT_PROMPT (lit "hello")
         (readyWorld validkey
            (fun _ => Rejects (ErrorObj
               (lit "QUOTA_EXCEEDED and " ++ lit "API_KEY_INVALID"
                  ++ lit " at once")))))
  = Throw InvalidApiKeyError.
Proof.
  rewrite (X4_invalid_key_translated
             (readyWorld validkey
                (fun _ => Rejects (ErrorObj
                   (lit "QUOTA_EXCEEDED and " ++ lit "API_KEY_INVALID"
                      ++ lit " at once"))))
             (mkModel validkey MODEL) DEFAULT_PROMPT (lit "hello")
             (lit "QUOTA_EXCEEDED and ") (lit " at once")
             eq_refl eq_refl eq_refl).
  reflexivity.
Defined.

(** X5. When the provider rejects the call with an Error whose message
    contains QUOTA_EXCEEDED and not API_KEY_INVALID, analyzeNote fails
    with "API quota exceeded. Please try again later.". *)
Theorem X5_quota_translated
        (w : World) (m : GenerativeModel)
        (systemPrompt noteContent pre post : jsstring) :
  model (geminiClient w) = Some m ->
  whitespaceOnly noteContent = false ->
  provider w (systemPrompt ++ SEPARATOR ++ noteContent)
  = Rejects (ErrorObj (pre ++ lit "QUOTA_EXCEEDED" ++ post)) ->
  includes (pre ++ lit "QUOTA_EXCEEDED" ++ post) (lit "API_KEY_INVALID")
  = false ->
  fst (analyzeNote systemPrompt noteContent w) = Throw QuotaExceededError.
Proof.
  intros Hm Hb Hp Hk.
  rewrite (analyzeNote_rejected w m _ _ _ Hm Hb Hp), Hk, includes_app.
  reflexivity.
Qed.

Lemma X5_quota_translated_witness :
  fst (analyzeNote DEFAULT_PROMPT (lit "hello")
         (readyWorld validkey
            (fun _ => Rejects (ErrorObj
               (lit "[429] " ++ lit "QUOTA_EXCEEDED" ++ lit " for project")))))
  = Throw QuotaExceededError.
Proof.
  apply (X5_quota_translated
           (readyWorld validkey
              (fun _ => Rejects (ErrorObj
                 (lit "[429] " ++ lit "QUOTA_EXCEEDED" ++ lit " for project"))))
           (mkModel validkey MODEL) DEFAULT_PROMPT (lit "hello")
           (lit "[429] ") (lit " for project")); reflexivity.
Defined.

(** X6. Any other rejection is a catch-all: an Error whose message
    contains neither code comes back as "Analysis failed: " followed by
    that message, unchanged; a thrown value that is not an Error comes
    back as "Unknown error occurred during analysis". *)
Theorem X6_other_failures_wrapped
        (w : World) (m : GenerativeModel) (systemPrompt noteContent : jsstring) :
  model (geminiClient w) = Some m ->
  whitespaceOnly noteContent = false ->
  (forall message,
      provider w (systemPrompt ++ SEPARATOR ++ noteContent)
      = Rejects (ErrorObj message) ->
      includes message (lit "API_KEY_INVALID") = false ->
      includes message (lit "QUOTA_EXCEEDED") = false ->
      fst (analyzeNote systemPrompt noteContent w)
      = Throw (ErrorObj (lit "Analysis failed: " ++ message)))
  /\ (provider w (systemPrompt ++ SEPARATOR ++ noteContent) = Rejects NonError ->
      fst (analyzeNote systemPrompt noteContent w) = Throw UnknownError).
Proof.
  intros Hm Hb. split.
  - intros message Hp Hk Hq.
    rewrite (analyzeNote_rejected w m _ _ _ Hm Hb Hp), Hk, Hq. reflexivity.
  - intros Hp. rewrite (analyzeNote_rejected w m _ _ _ Hm Hb Hp).
    reflexivity.
Qed.

Lemma X6_other_failures_wrapped_witness :
  fst (analyzeNote DEFAULT_PROMPT (lit "hello")
         (readyWorld validkey
            (fun _ => Rejects (ErrorObj (lit "fetch failed")))))
  = Throw (ErrorObj (lit "Analysis failed: fetch failed"))
  /\ fst (analyzeNote DEFAULT_PROMPT (lit "hello")
            (readyWorld validkey (fun _ => Rejects NonError)))
     = Throw UnknownError.
Proof.
  split.
  - apply (X6_other_failures_wrapped
             (readyWorld validkey
                (fun _ => Rejects (ErrorObj (lit "fetch failed"))))
             (mkModel validkey MODEL) DEFAULT_PROMPT (lit "hello")
             eq_refl eq_refl); reflexivity.
  - apply (X6_other_failures_wrapped
             (readyWorld validkey (fun _ => Rejects NonError))
             (mkModel validkey MODEL) DEFAULT_PROMPT (lit "hello")
             eq_refl eq_refl); reflexivity.
Defined.

(** X7. The errors of analyzeNote form a closed set: whatever it throws
    is the not-initialized error, the empty-note error, the invalid-key
    error, the quota error, "Analysis failed: " followed by some message,
    or the unknown error; no value of the provider escapes as it is. *)
Theorem X7_errors_form_a_closed_set
        (w : World) (systemPrompt noteContent : jsstring) (e : thrown) :
  fst (analyzeNote systemPrompt noteContent w) = Throw e ->
  e = NotInitializedError
  \/ e = EmptyInputError
  \/ e = InvalidApiKeyError
  \/ e = QuotaExceededError
  \/ (exists message, e = AnalysisFailedError message)
  \/ e = UnknownError.
Proof.
  destruct (model (geminiClient w)) as [m|] eqn:Hm.
  - destruct (whitespaceOnly noteContent) eqn:Hb.
    + rewrite (analyzeNote_blank w m _ _ Hm Hb). intros [= <-]. tauto.
    + destruct (provider w (systemPrompt ++ SEPARATOR ++ noteContent))
        as [text|e'] eqn:Hp.
      * destruct text as [|c text].
        -- rewrite (analyzeNote_empty_payload w m _ _ Hm Hb Hp).
           intros [= <-]. do 4 right. left. eexists. reflexivity.
        -- rewrite (analyzeNote_responded w m _ _ _ Hm Hb Hp eq_refl).
           discriminate.
      * rewrite (analyzeNote_rejected w m _ _ _ Hm Hb Hp). cbn [fst].
        intros [= <-]. destruct e' as [message|]; [|tauto].
        destruct (includes message (lit "API_KEY_INVALID")); [tauto|].
        destruct (includes message (lit "QUOTA_EXCEEDED")); [tauto|].
        do 4 right. left. eexists. reflexivity.
  - rewrite (analyzeNote_uninitialized w _ _ Hm). intros [= <-]. tauto.
Qed.

Lemma X7_errors_form_a_closed_set_witness :
  InvalidApiKeyError = NotInitializedError
  \/ InvalidApiKeyError = EmptyInputError
  \/ InvalidApiKeyError = InvalidApiKeyError
  \/ InvalidApiKeyError = QuotaExceededError
  \/ (exists message, InvalidApiKeyError = AnalysisFailedError message)
  \/ InvalidApiKeyError = UnknownError.
Proof.
  apply (X7_errors_form_a_closed_set
           (readyWorld validkey providerInvalidKey)
           DEFAULT_PROMPT (lit "hello")).
  reflexivity.
Defined.

Lemma analyzeNote_networkCalls
      (w : World) (systemPrompt noteContent : jsstring) :
  networkCalls (log (snd (analyzeNote systemPrompt noteContent w)))
  = networkCalls (log w)
    ++ match model (geminiClient w) with
       | Some _ =>
           if whitespaceOnly noteContent then []
           else [systemPrompt ++ SEPARATOR ++ noteContent]
       | None => []
       end.
Proof.
  destruct (model (geminiClient w)) as [m|] eqn:Hm.
  - destruct (whitespaceOnly noteContent) eqn:Hb.
    + rewrite (analyzeNote_blank w m _ _ Hm Hb). symmetry. apply app_nil_r.
    + destruct (analyzeNote_call w m systemPrompt noteContent Hm Hb)
        as [(text & _ & _ & _ & ->)|(e & message & _ & ->)];
        cbn [emit log]; repeat rewrite networkCalls_app; simpl;
        rewrite ?app_nil_r; reflexivity.
  - rewrite (analyzeNote_uninitialized w _ _ Hm). symmetry. apply app_nil_r.
Qed.

(** X8. One invocation of analyzeNote makes at most one network call, in
    every case: exactly one, carrying the full prompt, when the client is
    initialized and the note is not blank, and none otherwise; a failure
    is never retried. *)
Theorem X8_at_most_one_call
        (w : World) (systemPrompt noteContent : jsstring) :
  networkCalls (log (snd (analyzeNote systemPrompt noteContent w)))
  = networkCalls (log w)
    ++ match model (geminiClient w) with
       | Some _ =>
           if whitespaceOnly noteContent then []
           else [systemPrompt ++ SEPARATOR ++ noteContent]
       | None => []
       end.
Proof. apply analyzeNote_networkCalls. Qed.

(** initialize with a usable key. *)
Lemma initialize_ok (w : World) (apiKey : jsstring) :
  whitespaceOnly apiKey = false ->
  initialize apiKey w = (Ok tt, setClient (readyClient apiKey) w).
Proof.
  intros H. unfold initialize. rewrite isBlank_whitespaceOnly, H.
  reflexivity.
Qed.

Lemma initialize_blank (w : World) (apiKey : jsstring) :
  whitespaceOnly apiKey = true ->
  initialize apiKey w = (Throw ConfigurationError, w).
Proof.
  intros H. unfold initialize. rewrite isBlank_whitespaceOnly, H.
  reflexivity.
Qed.

(** X9. Re-initializing replaces the handle: after initialize with any
    first key (accepted or not) and then with a key that is not blank, the
    client holds the second key alone, as if the first call had not been
    made, and nothing else in the world has changed. *)
Theorem X9_last_key_wins (w : World) (firstKey secondKey : jsstring) :
  whitespaceOnly secondKey = false ->
  snd (initialize secondKey (snd (initialize firstKey w)))
  = setClient (mkClient (Some (mkGenAI secondKey))
                        (Some (mkModel secondKey (lit "gemini-1.5-flash")))) w.
Proof.
  intros H2. destruct (whitespaceOnly firstKey) eqn:H1.
  - rewrite (initialize_blank w firstKey H1). cbn [snd].
    rewrite (initialize_ok w secondKey H2). reflexivity.
  - rewrite (initialize_ok w firstKey H1). cbn [snd].
    rewrite (initialize_ok _ secondKey H2). reflexivity.
Qed.

Lemma X9_last_key_wins_witness :
  geminiClient
    (snd (initialize (lit "second")
            (snd (initialize (lit "first")
                    (freshWorld [] providerCritique)))))
  = mkClient (Some (mkGenAI (lit "second")))
             (Some (mkModel (lit "second") (lit "gemini-1.5-flash"))).
Proof.
  rewrite (X9_last_key_wins (freshWorld [] providerCritique)
             (lit "first") (lit "second") eq_refl).
  reflexivity.
Defined.

Lemma calledModels_app (l1 l2 : list Event) :
  calledModels (l1 ++ l2) = calledModels l1 ++ calledModels l2.
Proof. unfold calledModels. apply flat_map_app. Qed.

Lemma clientWf_model (c : GeminiClient) (m : GenerativeModel) :
  clientWf c -> model c = Some m -> modelName m = MODEL.
Proof.
  unfold clientWf. intros H Hm. rewrite Hm in H.
  destruct (genAI c); [apply H|contradiction].
Qed.

(** One call of the client keeps the invariant. *)
Lemma runClientOp_invariant (w : World) (o : ClientOp) :
  clientWf (geminiClient w) ->
  Forall (fun name => name = MODEL) (calledModels (log w)) ->
  clientWf (geminiClient (runClientOp w o))
  /\ Forall (fun name => name = MODEL) (calledModels (log (runClientOp w o))).
Proof.
  intros Hwf Hlog. destruct o as [k|sp nc|]; cbn [runClientOp].
  - destruct (whitespaceOnly k) eqn:Hk.
    + rewrite (initialize_blank w k Hk). split; assumption.
    + rewrite (initialize_ok w k Hk). split; [|exact Hlog].
      cbn. split; reflexivity.
  - split; [rewrite analyzeNote_client; exact Hwf|].
    destruct (model (geminiClient w)) as [m|] eqn:Hm.
    + pose proof (clientWf_model _ _ Hwf Hm) as Hname.
      destruct (whitespaceOnly nc) eqn:Hb.
      * rewrite (analyzeNote_blank w m _ _ Hm Hb). exact Hlog.
      * destruct (analyzeNote_call w m sp nc Hm Hb)
          as [(text & _ & _ & _ & ->)|(e & message & _ & ->)];
          cbn [emit log]; repeat rewrite calledModels_app;
          repeat apply Forall_app_2; try exact Hlog;
          simpl; auto.
    + rewrite (analyzeNote_uninitialized w _ _ Hm). exact Hlog.
  - split; assumption.
Qed.

(** X10. Starting from a client whose two fields are unset or set
    together, any sequence of initialize, analyzeNote and isInitialized
    calls keeps them so: genAI and model are both null or both hold the
    same key, the model is always gemini-1.5-flash, and every network call
    made along the way names that model. *)
Theorem X10_client_invariant (ops : list ClientOp) (w : World) :
  clientWf (geminiClient w) ->
  Forall (fun name => name = MODEL) (calledModels (log w)) ->
  clientWf (geminiClient (fold_left runClientOp ops w))
  /\ Forall (fun name => name = lit "gemini-1.5-flash")
            (calledModels (log (fold_left runClientOp ops w))).
Proof.
  revert w. induction ops as [|o ops IH]; intros w Hwf Hlog.
  - split; assumption.
  - cbn [fold_left].
    destruct (runClientOp_invariant w o Hwf Hlog) as [Hwf' Hlog'].
    exact (IH _ Hwf' Hlog').
Qed.

Lemma X10_client_invariant_witness :
  Forall (fun name => name = lit "gemini-1.5-flash")
    (calledModels
       (log (fold_left runClientOp
               [CallAnalyzeNote DEFAULT_PROMPT (lit "early");
                CallInitialize (lit " ");
                CallInitialize validkey;
                CallAnalyzeNote DEFAULT_PROMPT (lit "hello");
                CallIsInitialized;
                CallInitialize (lit "other");
                CallAnalyzeNote DEFAULT_PROMPT (lit "again")]
               (freshWorld [] providerCritique)))).
Proof.
  apply (X10_client_invariant _ (freshWorld [] providerCritique)).
  - exact I.
  - apply Forall_nil_2.
Defined.

End ClientExtras.

(* ===================================================================== *)
(** ** The settings store, beyond the claims *)
(* ===================================================================== *)

Section SettingsExtras.

Lemma toObject_lookup (cfg : ForestMiniSettings) (k : string) :
  toObject cfg !! k
  = if decide (k = "geminiApiKey"%string) then Some (VStr (geminiApiKey cfg))
    else if decide (k = "mephistoPrompt"%string)
         then Some (VStr (mephistoPrompt cfg))
         else None.
Proof.
  unfold toObject.
  destruct (decide (k = "geminiApiKey"%string)) as [->|Hk].
  - apply lookup_insert_eq.
  - rewrite lookup_insert_ne by congruence.
    destruct (decide (k = "mephistoPrompt"%string)) as [->|Hp].
    + apply lookup_singleton_eq.
    + apply lookup_singleton_ne. congruence.
Qed.

(** A typed settings value hides every default. *)
Lemma toObject_over_defaults (cfg other : ForestMiniSettings) :
  toObject cfg ∪ toObject other = toObject cfg.
Proof.
  apply map_eq. intros k. rewrite lookup_union, !toObject_lookup.
  destruct (decide (k = "geminiApiKey"%string)); [reflexivity|].
  destruct (decide (k = "mephistoPrompt"%string)); reflexivity.
Qed.

(** X11. Loading is stable under a save: loading, saving what was loaded
    and loading again gives the settings of the first load, whatever the
    data file held (nothing, a partial blob, a blob with other fields). *)
Theorem X11_load_save_load (st : PluginData) :
  settingsObj (loadSettings (saveSettings (loadSettings st)))
  = settingsObj (loadSettings st).
Proof.
  rewrite (loadSettings_merge (saveSettings (loadSettings st))).
  cbn [saveSettings saveData dataFile].
  rewrite (delete_id _ _ (loadSettings_no_proto st)).
  rewrite (loadSettings_merge st).
  destruct (dataFile st) as [blob|].
  - rewrite <- (assoc_L (∪)), (idemp_L (∪)). reflexivity.
  - apply (idemp_L (∪)).
Qed.

(** X12. The fields of the loaded settings are those of the persisted
    blob, except a field named __proto__, together with geminiApiKey and
    mephistoPrompt: both settings are always there after a load, the other
    fields of the blob that the plugin does not know are kept, __proto__
    is dropped, and no other field appears. *)
Theorem X12_loaded_fields (st : PluginData) :
  dom (settingsObj (loadSettings st))
  = match dataFile st with
    | Some blob => dom blob ∖ {[ "__proto__"%string ]}
    | None => ∅
    end ∪ {[ "geminiApiKey"%string; "mephistoPrompt"%string ]}.
Proof.
  assert (Hd : dom (toObject DEFAULT_SETTINGS)
               = ({[ "geminiApiKey"%string; "mephistoPrompt"%string ]}
                  : gset string)).
  { unfold toObject. rewrite dom_insert_L, dom_singleton_L. reflexivity. }
  rewrite loadSettings_merge.
  destruct (dataFile st) as [blob|].
  - rewrite dom_union_L, dom_delete_L, Hd. reflexivity.
  - rewrite Hd, (left_id_L ∅ (∪)). reflexivity.
Qed.

(** X13. A complete configuration survives the round trip whole: saving
    any pair of key and prompt and loading it again gives exactly that
    pair as the settings object, with no default mixed in (an emptied
    prompt or key stays empty). *)
Theorem X13_typed_round_trip (cfg : ForestMiniSettings) (d : option object) :
  settingsObj (loadSettings (saveSettings (mkData (toObject cfg) d)))
  = toObject cfg.
Proof.
  rewrite loadSettings_merge. cbn [saveSettings saveData dataFile settingsObj].
  rewrite (delete_id _ _ (toObject_no_proto cfg)).
  apply toObject_over_defaults.
Qed.

End SettingsExtras.

(* ===================================================================== *)
(** ** The settings tab *)
(* ===================================================================== *)

Section SettingTabExtras.

Lemma onApiKeyChange_saved (value : jsstring) (st : PluginState) :
  fst (onApiKeyChange value st) = Ok tt
  /\ settings (world (snd (onApiKeyChange value st)))
     = mkSettings value (mephistoPrompt (settings (world st)))
  /\ otherFields (snd (onApiKeyChange value st)) = otherFields st
  /\ persisted (snd (onApiKeyChange value st))
     = Some (toObject
               (mkSettings value (mephistoPrompt (settings (world st))))
             ∪ otherFields st).
Proof.
  destruct st as [[s c leaf right p md now l] o d Ho].
  unfold onApiKeyChange.
  cbv beta iota zeta delta
    [world persisted otherFields savePlugin settingsObject setSettings
     settings].
  destruct (truthy value) eqn:Ht; [|repeat split; reflexivity].
  destruct (whitespaceOnly value) eqn:Hws.
  - unfold try_catch, bind. rewrite initialize_blank by exact Hws.
    repeat split; reflexivity.
  - unfold try_catch, bind. rewrite initialize_ok by exact Hws.
    repeat split; reflexivity.
Qed.

(** X14. Every change of the API key field is stored and persisted as
    typed, valid or not: after the handler the settings hold the new value
    and the old prompt, the data file holds these two fields (laid over
    whatever other fields the settings object carries), and the handler
    has not thrown. *)
Theorem X14_key_change_always_saved (value : jsstring) (st : PluginState) :
  fst (onApiKeyChange value st) = Ok tt
  /\ settings (world (snd (onApiKeyChange value st)))
     = mkSettings value (mephistoPrompt (settings (world st)))
  /\ otherFields (snd (onApiKeyChange value st)) = otherFields st
  /\ persisted (snd (onApiKeyChange value st))
     = Some (toObject
               (mkSettings value (mephistoPrompt (settings (world st))))
             ∪ otherFields st).
Proof. apply onApiKeyChange_saved. Qed.

(** X15. What a change of the API key does to the client: a key that is
    not blank re-initializes the client with it and is announced as saved;
    a whitespace-only key is announced as invalid and an emptied field is
    not announced at all, and both leave the client as it was, so a client
    initialized earlier keeps its earlier key. *)
Theorem X15_key_change_and_client (value : jsstring) (st : PluginState) :
  let st' := snd (onApiKeyChange value st) in
  (whitespaceOnly value = false ->
     geminiClient (world st') = readyClient value
     /\ log (world st')
        = log (world st)
            ++ [Notice (lit "API key saved and client initialized")])
  /\ (whitespaceOnly value = true -> isEmpty value = false ->
        geminiClient (world st') = geminiClient (world st)
        /\ log (world st') = log (world st) ++ [Notice (lit "Invalid API key")])
  /\ (isEmpty value = true ->
        geminiClient (world st') = geminiClient (world st)
        /\ log (world st') = log (world st)).
Proof.
  destruct st as [[s c leaf right p md now l] o d Ho].
  unfold onApiKeyChange.
  cbv beta iota zeta delta
    [world persisted otherFields savePlugin settingsObject setSettings
     settings].
  split; [|split].
  - intros Hws. rewrite (truthy_whitespaceOnly value Hws).
    unfold try_catch, bind. rewrite initialize_ok by exact Hws.
    split; reflexivity.
  - intros Hws Hne. unfold truthy. rewrite Hne. cbn [negb].
    unfold try_catch, bind. rewrite initialize_blank by exact Hws.
    split; reflexivity.
  - intros He. unfold truthy. rewrite He. split; reflexivity.
Qed.

Lemma X15_key_change_and_client_witness :
  geminiClient
    (world (snd (onApiKeyChange validkey
                   (pluginOf (freshWorld [] providerCritique)))))
  = readyClient validkey
  /\ geminiClient
       (world (snd (onApiKeyChange (lit "  ")
                      (pluginOf (readyWorld validkey providerCritique)))))
     = readyClient validkey
  /\ log (world (snd (onApiKeyChange []
                        (pluginOf (readyWorld validkey providerCritique)))))
     = [].
Proof.
  split; [|split].
  - destruct (X15_key_change_and_client validkey
                (pluginOf (freshWorld [] providerCritique)))
      as (H & _ & _).
    exact (proj1 (H eq_refl)).
  - destruct (X15_key_change_and_client (lit "  ")
                (pluginOf (readyWorld validkey providerCritique)))
      as (_ & H & _).
    exact (proj1 (H eq_refl eq_refl)).
  - destruct (X15_key_change_and_client []
                (pluginOf (readyWorld validkey providerCritique)))
      as (_ & _ & H).
    exact (proj2 (H eq_refl)).
Defined.

Lemma applyEdit_persists (st : PluginState) (e : Edit) :
  persisted (applyEdit st e) = Some (settingsObject (applyEdit st e)).
Proof.
  destruct e as [v|v]; cbn [applyEdit].
  - unfold settingsObject.
    destruct (onApiKeyChange_saved v st) as (_ & -> & -> & ->).
    reflexivity.
  - reflexivity.
Qed.

Lemma settingsObject_no_proto (st : PluginState) :
  settingsObject st !! PROTO = None.
Proof.
  unfold settingsObject. apply lookup_union_None.
  split; [apply toObject_no_proto|apply otherFields_plain].
Qed.

(** A settings object with both typed fields hides every default. *)
Lemma settingsObject_over_defaults (st : PluginState)
      (other : ForestMiniSettings) :
  settingsObject st ∪ toObject other = settingsObject st.
Proof.
  unfold settingsObject. rewrite <- (assoc_L (∪)).
  apply map_eq. intros k. rewrite !lookup_union, !toObject_lookup.
  destruct (otherFields st !! k);
    destruct (decide (k = "geminiApiKey"%string)); try reflexivity;
    destruct (decide (k = "mephistoPrompt"%string)); reflexivity.
Qed.

End SettingTabExtras.

(* ===================================================================== *)
(** ** The analyze command, case by case *)
(* ===================================================================== *)

Section CommandCases.

Lemma clientReady_false (w : World) :
  clientReady w = false ->
  model (geminiClient w) = None
  /\ whitespaceOnly (geminiApiKey (settings w)) = true.
Proof.
  unfold clientReady. destruct (model (geminiClient w)); [discriminate|].
  intros H. apply negb_false_iff in H. split; [reflexivity|exact H].
Qed.

Lemma command_no_key (w : World) (editorValue : jsstring) :
  truthy (geminiApiKey (settings w)) = false ->
  analyzeCurrentNote editorValue w
  = (Ok tt,
     emit (Notice (lit "Please set your Gemini API key in settings first."))
          w).
Proof.
  destruct w as [s c leaf right p md now l]. cbn [settings].
  intros Hkey. unfold analyzeCurrentNote. run_w. rewrite Hkey. reflexivity.
Qed.

Lemma command_initialize_fails (w : World) (editorValue : jsstring) :
  truthy (geminiApiKey (settings w)) = true ->
  clientReady w = false ->
  analyzeCurrentNote editorValue w
  = (Ok tt,
     emit (Notice (lit
             "Failed to initialize Gemini client. Check your API key.")) w).
Proof.
  intros Hkey Hready. apply clientReady_false in Hready as [Hm Hws].
  destruct w as [s [g m] leaf right p md now l].
  cbn [settings geminiClient model] in Hkey, Hws, Hm. subst m.
  unfold analyzeCurrentNote. run_w. rewrite Hkey.
  rewrite isBlank_whitespaceOnly, Hws. reflexivity.
Qed.

Lemma lazyInit_spec (w : World) :
  clientReady w = true ->
  lazyInit w
  = setClient match model (geminiClient w) with
              | Some _ => geminiClient w
              | None => readyClient (geminiApiKey (settings w))
              end w.
Proof.
  destruct w as [s [g m] leaf right p md now l].
  unfold clientReady, lazyInit. cbn [settings geminiClient model].
  intros Hready. destruct m as [m|].
  - reflexivity.
  - apply negb_true_iff in Hready. run_w.
    rewrite isBlank_whitespaceOnly, Hready. reflexivity.
Qed.

Lemma command_no_panel (w : World) (editorValue : jsstring) :
  truthy (geminiApiKey (settings w)) = true ->
  clientReady w = true ->
  panelAvailable w = false ->
  analyzeCurrentNote editorValue w
  = (Ok tt, emit (Notice (lit "Failed to open Lens View")) (lazyInit w)).
Proof.
  destruct w as [s [g m] leaf right p md now l].
  unfold clientReady, panelAvailable, lazyInit.
  cbn [settings geminiClient model lensLeaf rightLeaf].
  intros Hkey Hready Hpanel.
  destruct leaf as [v|]; [discriminate|]. subst right.
  unfold analyzeCurrentNote. destruct m as [m|].
  - run_w. rewrite Hkey. reflexivity.
  - apply negb_true_iff in Hready. run_w.
    rewrite Hkey, isBlank_whitespaceOnly, Hready. reflexivity.
Qed.

(** The world at the try block, field by field. *)
Lemma untilAnalysis_frame (w : World) :
  clientReady w = true ->
  panelAvailable w = true ->
  untilAnalysis w
  = mkWorld (settings w) (geminiClient (lazyInit w))
            (Some (mkLens loadingState)) (rightLeaf w) (provider w)
            (markdownRenderer w) (localeNow w)
            (log w ++ activationEvents w
               ++ [PanelRendered loadingState;
                   Notice (lit "Analyzing with Mephisto...")]).
Proof.
  intros Hready Hpanel. rewrite (lazyInit_spec w Hready).
  destruct w as [s [g m] leaf right p md now l].
  unfold clientReady, panelAvailable, activationEvents in *.
  cbn [settings geminiClient model lensLeaf rightLeaf] in *.
  unfold untilAnalysis.
  destruct m as [m|].
  - run_w. destruct leaf as [v|]; [|rewrite Hpanel]; run_w;
      repeat rewrite <- app_assoc; reflexivity.
  - apply negb_true_iff in Hready.
    run_w. rewrite isBlank_whitespaceOnly, Hready.
    destruct leaf as [v|]; [|rewrite Hpanel]; run_w;
      repeat rewrite <- app_assoc; reflexivity.
Qed.

Lemma world_eta (w : World) :
  w = mkWorld (settings w) (geminiClient w) (lensLeaf w) (rightLeaf w)
              (provider w) (markdownRenderer w) (localeNow w) (log w).
Proof. destruct w. reflexivity. Qed.

(** analyzeNote changes nothing of the world but its log, to which it
    adds no notice and no panel rendering. *)
Lemma analyzeNote_frame (w : World) (systemPrompt noteContent : jsstring) :
  exists events,
    snd (analyzeNote systemPrompt noteContent w)
    = mkWorld (settings w) (geminiClient w) (lensLeaf w) (rightLeaf w)
              (provider w) (markdownRenderer w) (localeNow w)
              (log w ++ events)
    /\ List.filter userVisible events = [].
Proof.
  destruct (model (geminiClient w)) as [m|] eqn:Hm.
  - destruct (whitespaceOnly noteContent) eqn:Hb.
    + rewrite (analyzeNote_blank _ m _ _ Hm Hb). exists [].
      cbn [snd]. rewrite app_nil_r. split; [apply world_eta|reflexivity].
    + destruct (analyzeNote_call _ m systemPrompt noteContent Hm Hb)
        as [(text & _ & _ & _ & ->)|(e & message & _ & ->)].
      * eexists [_]. split; reflexivity.
      * eexists [_; _]. unfold emit.
        cbn [settings geminiClient lensLeaf rightLeaf provider
             markdownRenderer localeNow log].
        rewrite <- app_assoc. split; reflexivity.
  - rewrite (analyzeNote_uninitialized _ _ _ Hm). exists [].
    cbn [snd]. rewrite app_nil_r. split; [apply world_eta|reflexivity].
Qed.

(** The try block when the analysis call returns. *)
Lemma tryBlock_success (w1 w2 : World) (v : LensView)
      (prompt editorValue text : jsstring) :
  whitespaceOnly editorValue = false ->
  analyzeNote prompt editorValue w1 = (Ok text, w2) ->
  lensLeaf w2 = Some v ->
  tryBlock prompt editorValue w1
  = (Ok tt,
     emit (Notice (lit "Analysis complete!"))
       (withPanel (resultState (markdownRenderer w2) (localeNow w2) text)
                  w2)).
Proof.
  intros Hb Hcall Hleaf.
  unfold tryBlock. rewrite isBlank_whitespaceOnly, Hb.
  cbv beta iota delta [try_catch bind]. rewrite Hcall.
  destruct w2 as [s c leaf right p md now l].
  cbn [lensLeaf] in Hleaf. subst leaf. reflexivity.
Qed.

(** Every run of the command is one of six. *)
Lemma analyzeCurrentNote_cases (w : World) (editorValue : jsstring) :
  let r := analyzeCurrentNote editorValue w in
  let prompt := mephistoPrompt (settings w) in
  (truthy (geminiApiKey (settings w)) = false
   /\ r = (Ok tt,
           emit (Notice (lit
                   "Please set your Gemini API key in settings first.")) w))
  \/ (truthy (geminiApiKey (settings w)) = true
      /\ clientReady w = false
      /\ r = (Ok tt,
              emit (Notice (lit
                      "Failed to initialize Gemini client. Check your API key."))
                   w))
  \/ (truthy (geminiApiKey (settings w)) = true
      /\ clientReady w = true /\ panelAvailable w = false
      /\ r = (Ok tt,
              emit (Notice (lit "Failed to open Lens View")) (lazyInit w)))
  \/ (guardsPass w = true /\ whitespaceOnly editorValue = true
      /\ r = (Ok tt,
              emit (Notice (lit "Current note is empty"))
                (withPanel (errorState (lit "Current note is empty"))
                           (untilAnalysis w))))
  \/ (guardsPass w = true /\ whitespaceOnly editorValue = false
      /\ exists text w2,
           analyzeNote prompt editorValue (untilAnalysis w) = (Ok text, w2)
           /\ r = (Ok tt,
                   emit (Notice (lit "Analysis complete!"))
                     (withPanel
                        (resultState (markdownRenderer w2) (localeNow w2) text)
                        w2)))
  \/ (guardsPass w = true /\ whitespaceOnly editorValue = false
      /\ exists e w2,
           analyzeNote prompt editorValue (untilAnalysis w) = (Throw e, w2)
           /\ r = (Ok tt,
                   emit (Notice (lit "Analysis failed: " ++ messageOf e))
                     (withPanel (errorState (messageOf e))
                        (emit (ConsoleError (lit "Analysis error:") e) w2)))).
Proof.
  intros r prompt. subst r prompt. unfold guardsPass.
  destruct (truthy (geminiApiKey (settings w))) eqn:Hkey;
    [|left; split; [reflexivity|apply command_no_key; exact Hkey]].
  destruct (clientReady w) eqn:Hready;
    [|right; left; repeat split;
      apply command_initialize_fails; assumption].
  destruct (panelAvailable w) eqn:Hpanel;
    [|right; right; left; repeat split;
      apply command_no_panel; assumption].
  do 3 right.
  rewrite (analyzeCurrentNote_past_guards w editorValue Hkey Hready Hpanel).
  destruct (untilAnalysis_spec w Hready Hpanel) as (_ & Hleaf & _).
  destruct (whitespaceOnly editorValue) eqn:Hb.
  - left. repeat split. apply (tryBlock_blank _ _ _ _ Hleaf Hb).
  - right.
    destruct (analyzeNote (mephistoPrompt (settings w)) editorValue
                (untilAnalysis w)) as [[text|e] w2] eqn:Hcall;
      assert (Hleaf2 : lensLeaf w2 = Some (mkLens loadingState))
        by (rewrite <- Hleaf,
              <- (analyzeNote_lensLeaf (untilAnalysis w)
                    (mephistoPrompt (settings w)) editorValue), Hcall;
            reflexivity).
    + left. repeat split. exists text, w2. split; [reflexivity|].
      apply (tryBlock_success _ _ _ _ _ _ Hb Hcall Hleaf2).
    + right. repeat split. exists e, w2. split; [reflexivity|].
      apply (tryBlock_failure _ _ _ _ _ _ Hb Hcall Hleaf2).
Qed.

End CommandCases.

(* ===================================================================== *)
(** ** The settings tab and the analyze command, beyond the claims *)
(* ===================================================================== *)

Section CommandExtras.

(** X16. Every edit in the settings tab is persisted whole and at once:
    after any sequence of key and prompt edits, what loadSettings would
    read back from the data file is exactly the settings object the plugin
    holds at that moment (the key and the prompt as last typed, and the
    other fields it carried). *)
Theorem X16_edits_are_persisted
        (st : PluginState) (edits : list Edit) (e : Edit) :
  let st' := fold_left applyEdit (edits ++ [e]) st in
  reloaded st' = settingsObject st'
  /\ reloaded st' !! "geminiApiKey"%string
     = Some (VStr (geminiApiKey (settings (world st'))))
  /\ reloaded st' !! "mephistoPrompt"%string
     = Some (VStr (mephistoPrompt (settings (world st')))).
Proof.
  cbv zeta. rewrite fold_left_app. cbn [fold_left].
  set (st0 := fold_left applyEdit edits st).
  assert (H : reloaded (applyEdit st0 e) = settingsObject (applyEdit st0 e)).
  { unfold reloaded. rewrite loadSettings_merge. cbn [dataFile].
    rewrite applyEdit_persists.
    rewrite (delete_id _ _ (settingsObject_no_proto (applyEdit st0 e))).
    apply settingsObject_over_defaults. }
  rewrite H. split; [reflexivity|]. unfold settingsObject.
  split; (erewrite lookup_union_Some_l; [reflexivity|]);
    rewrite toObject_lookup; reflexivity.
Qed.

(** X17. With no API key stored the command does one thing only: it
    issues the notice "Please set your Gemini API key in settings first.";
    the panel, the client and the network are left alone, whatever the
    note and even when the client is initialized. *)
Theorem X17_missing_key_only_notifies (w : World) (editorValue : jsstring) :
  geminiApiKey (settings w) = [] ->
  analyzeCurrentNote editorValue w
  = (Ok tt,
     emit (Notice (lit "Please set your Gemini API key in settings first."))
          w).
Proof. intros H. apply command_no_key. rewrite H. reflexivity. Qed.

Lemma X17_missing_key_only_notifies_witness :
  log (snd (analyzeCurrentNote (lit "hello")
              (readyWorld [] providerCritique)))
  = [Notice (lit "Please set your Gemini API key in settings first.")].
Proof.
  rewrite (X17_missing_key_only_notifies
             (readyWorld [] providerCritique) (lit "hello") eq_refl).
  reflexivity.
Defined.

(** X18. The command never throws: every error, of the client, of the
    provider or of its own guards, is handled inside it, for every state
    of the plugin, every provider and every note. *)
Theorem X18_command_never_throws (w : World) (editorValue : jsstring) :
  fst (analyzeCurrentNote editorValue w) = Ok tt.
Proof.
  destruct (analyzeCurrentNote_cases w editorValue)
    as [(_ & ->)|[(_ & _ & ->)|[(_ & _ & _ & ->)|[(_ & _ & ->)
       |[(_ & _ & text & w2 & _ & ->)|(_ & _ & e & w2 & _ & ->)]]]]];
    reflexivity.
Qed.

Lemma guardsPass_split (w : World) :
  guardsPass w = true ->
  truthy (geminiApiKey (settings w)) = true
  /\ clientReady w = true /\ panelAvailable w = true.
Proof.
  unfold guardsPass. intros H.
  apply andb_prop in H as [H Hp]. apply andb_prop in H as [Hk Hr].
  repeat split; assumption.
Qed.

Lemma lensLeaf_lazyInit (w : World) :
  clientReady w = true -> lensLeaf (lazyInit w) = lensLeaf w.
Proof. intros H. rewrite (lazyInit_spec w H). reflexivity. Qed.

(** X19. The command never leaves the panel in its Loading state: after
    any run the lens view is either untouched (a guard stopped the command)
    or shows a result or an error. *)
Theorem X19_loading_is_never_final (w : World) (editorValue : jsstring) :
  lensLeaf (snd (analyzeCurrentNote editorValue w)) = lensLeaf w
  \/ exists c,
       lensLeaf (snd (analyzeCurrentNote editorValue w)) = Some (mkLens c)
       /\ (variantsPresent c = [Some Result]
           \/ variantsPresent c = [Some Error]).
Proof.
  destruct (analyzeCurrentNote_cases w editorValue)
    as [(_ & ->)|[(_ & _ & ->)|[(_ & Hr & _ & ->)|[(_ & _ & ->)
       |[(_ & _ & text & w2 & _ & ->)|(_ & _ & e & w2 & _ & ->)]]]]].
  - left. reflexivity.
  - left. reflexivity.
  - left. cbn [snd]. exact (lensLeaf_lazyInit w Hr).
  - right. eexists. split; [reflexivity|]. right. reflexivity.
  - right. eexists. split; [reflexivity|]. left. reflexivity.
  - right. eexists. split; [reflexivity|]. right. reflexivity.
Qed.

Lemma networkCalls_activationEvents (w : World) :
  networkCalls (activationEvents w) = [].
Proof. unfold activationEvents. destruct (lensLeaf w); reflexivity. Qed.

Lemma networkCalls_untilAnalysis (w : World) :
  clientReady w = true -> panelAvailable w = true ->
  networkCalls (log (untilAnalysis w)) = networkCalls (log w).
Proof.
  intros Hr Hp. destruct (untilAnalysis_spec w Hr Hp) as (-> & _).
  rewrite !networkCalls_app, networkCalls_activationEvents.
  simpl. apply app_nil_r.
Qed.

Lemma networkCalls_after_call (w : World) (editorValue : jsstring) :
  clientReady w = true -> panelAvailable w = true ->
  whitespaceOnly editorValue = false ->
  networkCalls
    (log (snd (analyzeNote (mephistoPrompt (settings w)) editorValue
                 (untilAnalysis w))))
  = networkCalls (log w)
      ++ [mephistoPrompt (settings w) ++ SEPARATOR ++ editorValue].
Proof.
  intros Hr Hp Hb.
  rewrite analyzeNote_networkCalls, (networkCalls_untilAnalysis w Hr Hp).
  destruct (untilAnalysis_spec w Hr Hp) as (_ & _ & (m & ->) & _).
  rewrite Hb. reflexivity.
Qed.

(** X20. One run of the command makes at most one network call: exactly
    one, carrying the configured prompt, the separator and the text of the
    note, when the three guards pass and the note is not blank (whether the
    analysis then succeeds or fails), and none in every other case. *)
Theorem X20_command_calls_once (w : World) (editorValue : jsstring) :
  networkCalls (log (snd (analyzeCurrentNote editorValue w)))
  = networkCalls (log w)
    ++ (if guardsPass w && negb (whitespaceOnly editorValue)
        then [mephistoPrompt (settings w) ++ SEPARATOR ++ editorValue]
        else []).
Proof.
  destruct (analyzeCurrentNote_cases w editorValue)
    as [(Hk & ->)|[(Hk & Hr & ->)|[(Hk & Hr & Hp & ->)|[(Hg & Hb & ->)
       |[(Hg & Hb & text & w2 & Hcall & ->)
        |(Hg & Hb & e & w2 & Hcall & ->)]]]]].
  - unfold guardsPass. rewrite Hk. cbn [snd andb]. rewrite log_emit,
      networkCalls_app. reflexivity.
  - unfold guardsPass. rewrite Hk, Hr. cbn [snd andb]. rewrite log_emit,
      networkCalls_app. reflexivity.
  - unfold guardsPass. rewrite Hk, Hr, Hp. cbn [snd andb].
    rewrite log_emit, networkCalls_app, (lazyInit_spec w Hr). reflexivity.
  - rewrite Hg, Hb. cbn [snd andb negb].
    destruct (guardsPass_split w Hg) as (_ & Hr & Hp).
    unfold withPanel. rewrite !log_emit. cbn [setLensLeaf log].
    rewrite !networkCalls_app, (networkCalls_untilAnalysis w Hr Hp).
    simpl. rewrite !app_nil_r. reflexivity.
  - rewrite Hg, Hb. cbn [snd andb negb].
    destruct (guardsPass_split w Hg) as (_ & Hr & Hp).
    pose proof (networkCalls_after_call w editorValue Hr Hp Hb) as Hn.
    rewrite Hcall in Hn. cbn [snd] in Hn.
    unfold withPanel. rewrite !log_emit. cbn [setLensLeaf log].
    rewrite !networkCalls_app, Hn. simpl. rewrite !app_nil_r. reflexivity.
  - rewrite Hg, Hb. cbn [snd andb negb].
    destruct (guardsPass_split w Hg) as (_ & Hr & Hp).
    pose proof (networkCalls_after_call w editorValue Hr Hp Hb) as Hn.
    rewrite Hcall in Hn. cbn [snd] in Hn.
    unfold withPanel. rewrite !log_emit. cbn [setLensLeaf log].
    rewrite !log_emit, !networkCalls_app, Hn. simpl.
    rewrite !app_nil_r. reflexivity.
Qed.

Lemma visible_activationEvents (w : World) :
  List.filter userVisible (activationEvents w) = activationEvents w.
Proof. unfold activationEvents. destruct (lensLeaf w); reflexivity. Qed.

Lemma notices_activationEvents (w : World) :
  notices (activationEvents w) = [].
Proof. unfold activationEvents. destruct (lensLeaf w); reflexivity. Qed.

(** X21. When the guards pass, the note is not blank and the provider
    answers with a non-empty text, the panel ends in its result state: a
    timestamp line and the text as the host renders it; the user has seen,
    in order, the activation of the view, the loading state, the notice
    "Analyzing with Mephisto...", the result and the notice "Analysis
    complete!". *)
Theorem X21_success_shows_result (w : World) (editorValue text : jsstring) :
  guardsPass w = true ->
  whitespaceOnly editorValue = false ->
  provider w (mephistoPrompt (settings w) ++ SEPARATOR ++ editorValue)
  = Responds text ->
  text <> [] ->
  exists w',
    analyzeCurrentNote editorValue w = (Ok tt, w')
    /\ lensLeaf w'
       = Some (mkLens (resultState (markdownRenderer w) (localeNow w) text))
    /\ List.filter userVisible (log w')
       = List.filter userVisible (log w) ++ activationEvents w
           ++ [PanelRendered loadingState;
               Notice (lit "Analyzing with Mephisto...");
               PanelRendered
                 (resultState (markdownRenderer w) (localeNow w) text);
               Notice (lit "Analysis complete!")].
Proof.
  intros Hg Hb Hp Hne.
  destruct (guardsPass_split w Hg) as (Hk & Hr & Hpa).
  destruct (untilAnalysis_spec w Hr Hpa) as (_ & Hleaf & (m & Hm) & Hprov & _).
  assert (Htext : truthy text = true)
    by (destruct text; [contradiction|reflexivity]).
  rewrite <- Hprov in Hp.
  pose proof (analyzeNote_responded (untilAnalysis w) m _ _ _ Hm Hb Hp Htext)
    as Hcall.
  rewrite (analyzeCurrentNote_past_guards w editorValue Hk Hr Hpa).
  rewrite (tryBlock_success _ _ (mkLens loadingState) _ _ _ Hb Hcall Hleaf).
  eexists. split; [reflexivity|].
  rewrite (untilAnalysis_frame w Hr Hpa). split; [reflexivity|].
  unfold withPanel, emit, setLensLeaf.
  cbn [settings geminiClient lensLeaf rightLeaf provider markdownRenderer
       localeNow log].
  rewrite !List.filter_app, visible_activationEvents. cbn [List.filter userVisible].
  rewrite !app_nil_r, <- !app_assoc. reflexivity.
Qed.

Lemma X21_success_shows_result_witness :
  exists w',
    analyzeCurrentNote (lit "hello") (freshWorld validkey providerCritique)
    = (Ok tt, w')
    /\ lensLeaf w'
       = Some (mkLens
                 (resultState (fun text => [El "p" None text []])
                    (lit "1/1/2025, 12:00:00 PM") (lit "Critique: ..."))).
Proof.
  destruct (X21_success_shows_result
              (freshWorld validkey providerCritique) (lit "hello")
              (lit "Critique: ...") eq_refl eq_refl eq_refl
              ltac:(discriminate))
    as (w' & Hrun & Hleaf & _).
  exists w'. split; [exact Hrun|exact Hleaf].
Defined.

(** X22. When a key is stored and the client is or can be initialized but
    no lens view is open and the host gives no leaf for one, the command
    stops with the notice "Failed to open Lens View": no view, no network
    call; the client has nevertheless been initialized on the way. *)
Theorem X22_no_panel_stops_after_initialize
        (w : World) (editorValue : jsstring) :
  truthy (geminiApiKey (settings w)) = true ->
  clientReady w = true ->
  panelAvailable w = false ->
  exists w',
    analyzeCurrentNote editorValue w = (Ok tt, w')
    /\ log w' = log w ++ [Notice (lit "Failed to open Lens View")]
    /\ lensLeaf w' = None
    /\ fst (isInitialized w') = Ok true.
Proof.
  intros Hk Hr Hp.
  rewrite (command_no_panel w editorValue Hk Hr Hp), (lazyInit_spec w Hr).
  eexists. split; [reflexivity|]. split; [reflexivity|]. split.
  - unfold panelAvailable in Hp. cbn [emit setClient lensLeaf].
    destruct (lensLeaf w); [discriminate|reflexivity].
  - unfold clientReady in Hr. run_m. cbn [emit setClient geminiClient].
    destruct (model (geminiClient w)) eqn:Hm; [rewrite Hm|]; reflexivity.
Qed.

Lemma X22_no_panel_stops_after_initialize_witness :
  exists w',
    analyzeCurrentNote (lit "hello")
      (world0 validkey newClient None false providerCritique) = (Ok tt, w')
    /\ log w' = [Notice (lit "Failed to open Lens View")]
    /\ lensLeaf w' = None
    /\ fst (isInitialized w') = Ok true.
Proof.
  exact (X22_no_panel_stops_after_initialize
           (world0 validkey newClient None false providerCritique)
           (lit "hello") eq_refl eq_refl eq_refl).
Defined.

Lemma analyzeNote_settings (w : World) (systemPrompt noteContent : jsstring) :
  settings (snd (analyzeNote systemPrompt noteContent w)) = settings w.
Proof.
  destruct (analyzeNote_frame w systemPrompt noteContent) as (ev & -> & _).
  reflexivity.
Qed.

(** X23. The command never edits the settings, and it touches the client
    in one way only: a client that is not initialized is initialized with
    the stored key when that key is not blank (even if the run then stops
    for want of a panel); an initialized client is kept as it is, whatever
    key is stored now. *)
Theorem X23_command_and_client (w : World) (editorValue : jsstring) :
  settings (snd (analyzeCurrentNote editorValue w)) = settings w
  /\ geminiClient (snd (analyzeCurrentNote editorValue w))
     = match model (geminiClient w) with
       | Some _ => geminiClient w
       | None =>
           if whitespaceOnly (geminiApiKey (settings w)) then geminiClient w
           else readyClient (geminiApiKey (settings w))
       end.
Proof.
  assert (Hlazy : clientReady w = true ->
    geminiClient (lazyInit w)
    = match model (geminiClient w) with
      | Some _ => geminiClient w
      | None =>
          if whitespaceOnly (geminiApiKey (settings w)) then geminiClient w
          else readyClient (geminiApiKey (settings w))
      end).
  { intros Hr. rewrite (lazyInit_spec w Hr). unfold clientReady in Hr.
    cbn [setClient geminiClient].
    destruct (model (geminiClient w)); [reflexivity|].
    apply negb_true_iff in Hr. rewrite Hr. reflexivity. }
  destruct (analyzeCurrentNote_cases w editorValue)
    as [(Hk & ->)|[(Hk & Hr & ->)|[(Hk & Hr & Hp & ->)|[(Hg & Hb & ->)
       |[(Hg & Hb & text & w2 & Hcall & ->)
        |(Hg & Hb & e & w2 & Hcall & ->)]]]]].
  - split; [reflexivity|]. cbn [snd emit geminiClient].
    destruct (geminiApiKey (settings w)); [|discriminate].
    destruct (model (geminiClient w)); reflexivity.
  - split; [reflexivity|]. cbn [snd emit geminiClient].
    apply clientReady_false in Hr as [-> ->]. reflexivity.
  - rewrite <- (Hlazy Hr). rewrite (lazyInit_spec w Hr).
    split; reflexivity.
  - destruct (guardsPass_split w Hg) as (_ & Hr & Hp).
    rewrite <- (Hlazy Hr). rewrite (untilAnalysis_frame w Hr Hp).
    split; reflexivity.
  - destruct (guardsPass_split w Hg) as (_ & Hr & Hp).
    rewrite <- (Hlazy Hr).
    pose proof (analyzeNote_client (untilAnalysis w)
                  (mephistoPrompt (settings w)) editorValue) as Hc.
    pose proof (analyzeNote_settings (untilAnalysis w)
                  (mephistoPrompt (settings w)) editorValue) as Hs.
    rewrite Hcall in Hc, Hs. cbn [snd] in Hc, Hs.
    rewrite (untilAnalysis_frame w Hr Hp) in Hc, Hs.
    cbn [geminiClient settings] in Hc, Hs.
    unfold withPanel. cbn [snd emit setLensLeaf settings geminiClient].
    split; assumption.
  - destruct (guardsPass_split w Hg) as (_ & Hr & Hp).
    rewrite <- (Hlazy Hr).
    pose proof (analyzeNote_client (untilAnalysis w)
                  (mephistoPrompt (settings w)) editorValue) as Hc.
    pose proof (analyzeNote_settings (untilAnalysis w)
                  (mephistoPrompt (settings w)) editorValue) as Hs.
    rewrite Hcall in Hc, Hs. cbn [snd] in Hc, Hs.
    rewrite (untilAnalysis_frame w Hr Hp) in Hc, Hs.
    cbn [geminiClient settings] in Hc, Hs.
    unfold withPanel. cbn [snd emit setLensLeaf settings geminiClient].
    split; assumption.
Qed.

(** X24. There is at most one lens view and activating never redraws an
    open one: when a view is open, activateLensView only reveals it, its
    content untouched; and activating twice in a row leaves the same view
    and renders nothing more than activating once. *)
Theorem X24_activate_keeps_open_view :
  (forall (w : World) (v : LensView),
      lensLeaf w = Some v ->
      activateLensView w = (Ok tt, emit RevealLeaf w))
  /\ (forall w : World,
      lensLeaf (snd (activateLensView (snd (activateLensView w))))
      = lensLeaf (snd (activateLensView w))
      /\ panelHistory
           (log (snd (activateLensView (snd (activateLensView w)))))
         = panelHistory (log (snd (activateLensView w)))).
Proof.
  split.
  - intros [s c leaf right p md now l] v Hleaf.
    cbn [lensLeaf] in Hleaf. subst leaf. reflexivity.
  - intros [s c [v|] [|] p md now l]; split; reflexivity ||
      (unfold activateLensView; run_w; cbn [app];
       rewrite !panelHistory_app; simpl; rewrite ?app_nil_r; reflexivity).
Qed.

Lemma X24_activate_keeps_open_view_witness :
  activateLensView (readyWorld validkey providerCritique)
  = (Ok tt, emit RevealLeaf (readyWorld validkey providerCritique)).
Proof.
  destruct X24_activate_keeps_open_view as [Hopen _].
  apply (Hopen (readyWorld validkey providerCritique) onOpen).
  reflexivity.
Defined.

(** X25. A provider failure outside the two known codes is announced with
    the prefix twice: the client wraps the provider's message as "Analysis
    failed: <message>", the panel shows that, and the notice of the command
    reads "Analysis failed: Analysis failed: <message>". *)
Theorem X25_generic_failure_prefixed_twice
        (w : World) (editorValue message : jsstring) :
  guardsPass w = true ->
  whitespaceOnly editorValue = false ->
  provider w (mephistoPrompt (settings w) ++ SEPARATOR ++ editorValue)
  = Rejects (ErrorObj message) ->
  includes message (lit "API_KEY_INVALID") = false ->
  includes message (lit "QUOTA_EXCEEDED") = false ->
  exists w',
    analyzeCurrentNote editorValue w = (Ok tt, w')
    /\ lensLeaf w'
       = Some (mkLens (errorState (lit "Analysis failed: " ++ message)))
    /\ notices (log w')
       = notices (log w)
           ++ [lit "Analyzing with Mephisto...";
               lit "Analysis failed: " ++ lit "Analysis failed: " ++ message].
Proof.
  intros Hg Hb Hp Hki Hq.
  destruct (guardsPass_split w Hg) as (Hk & Hr & Hpa).
  destruct (untilAnalysis_spec w Hr Hpa) as (_ & Hleaf & (m & Hm) & Hprov & _).
  rewrite <- Hprov in Hp.
  pose proof (analyzeNote_rejected (untilAnalysis w) m _ _ _ Hm Hb Hp)
    as Hcall.
  cbv beta iota in Hcall. rewrite Hki, Hq in Hcall.
  rewrite (analyzeCurrentNote_past_guards w editorValue Hk Hr Hpa).
  rewrite (tryBlock_failure _ _ (mkLens loadingState) _ _ _ Hb Hcall Hleaf).
  eexists. split; [reflexivity|]. split; [reflexivity|].
  rewrite (untilAnalysis_frame w Hr Hpa).
  unfold emit, setLensLeaf.
  cbn [settings geminiClient lensLeaf rightLeaf provider markdownRenderer
       localeNow log].
  rewrite !notices_app, notices_activationEvents. cbn [notices flat_map app].
  rewrite !app_nil_r, <- !app_assoc. reflexivity.
Qed.

Lemma X25_generic_failure_prefixed_twice_witness :
  exists w',
    analyzeCurrentNote (lit "hello")
      (readyWorld validkey
         (fun _ => Rejects (ErrorObj (lit "fetch failed")))) = (Ok tt, w')
    /\ notices (log w')
       = [lit "Analyzing with Mephisto...";
          lit "Analysis failed: Analysis failed: fetch failed"].
Proof.
  destruct (X25_generic_failure_prefixed_twice
              (readyWorld validkey
                 (fun _ => Rejects (ErrorObj (lit "fetch failed"))))
              (lit "hello") (lit "fetch failed")
              eq_refl eq_refl eq_refl eq_refl eq_refl)
    as (w' & Hrun & _ & Hn).
  exists w'. split; [exact Hrun|exact Hn].
Defined.

(** X26. The client set-up of onload never throws and shows nothing to
    the user: a stored key that is not blank gives an initialized client
    holding it, any other key a new, uninitialized client (the failure of
    initialize goes to the console only). *)
Theorem X26_onload_client (w : World) :
  fst (onloadClient w) = Ok tt
  /\ List.filter userVisible (log (snd (onloadClient w)))
     = List.filter userVisible (log w)
  /\ geminiClient (snd (onloadClient w))
     = if whitespaceOnly (geminiApiKey (settings w)) then newClient
       else readyClient (geminiApiKey (settings w)).
Proof.
  destruct w as [s c leaf right p md now l]. cbn [settings log].
  unfold onloadClient, newClient.
  destruct (whitespaceOnly (geminiApiKey s)) eqn:Hws.
  - run_w. destruct (truthy (geminiApiKey s));
      [|repeat split; reflexivity].
    rewrite isBlank_whitespaceOnly, Hws.
    split; [reflexivity|]. split; [|reflexivity].
    rewrite List.filter_app. apply app_nil_r.
  - run_w. rewrite (truthy_whitespaceOnly _ Hws).
    rewrite isBlank_whitespaceOnly, Hws. repeat split; reflexivity.
Qed.

End CommandExtras.

(* ===================================================================== *)
(** ** The result panel, beyond the claims *)
(* ===================================================================== *)

Section PanelExtras.

Variable render : jsstring -> list el.

(** X27. What the panel shows tells what it was asked to show: two
    operations that leave the same content are of the same kind, and then
    two errors have the same message (it is rendered whole and literally)
    and two results the same timestamp and the same rendered nodes. *)
Theorem X27_content_determines_state
        (o1 o2 : PanelOp) (c1 c2 : list el) :
  applyOp render o1 c1 = applyOp render o2 c2 ->
  variantOfOp o1 = variantOfOp o2
  /\ match o1, o2 with
     | OpError m1, OpError m2 => m1 = m2
     | OpResult now1 text1, OpResult now2 text2 =>
         now1 = now2 /\ render text1 = render text2
     | _, _ => True
     end.
Proof.
  destruct o1 as [| |now1 text1|m1], o2 as [| |now2 text2|m2];
    cbn; intros H; try discriminate H; try (split; [reflexivity|exact I]).
  - injection H as Hnow Htext. repeat split; assumption.
  - injection H as Hm. split; [reflexivity|exact Hm].
Qed.

End PanelExtras.

Lemma X27_content_determines_state_witness :
  variantOfOp (OpError (lit "boom")) = variantOfOp (OpError (lit "boom"))
  /\ lit "boom" = lit "boom".
Proof.
  apply (X27_content_determines_state (fun _ => [])
           (OpError (lit "boom")) (OpError (lit "boom"))
           [] (Lens.showLoading [])).
  reflexivity.
Defined.
